(** * Conversational routing of the sales-predictor chatbot

    A shallow embedding of [src/chatbot.py] (class [ChatbotEngine]),
    [src/ml_engine.py] (class [MLEngine]), the endpoints of [src/api.py]
    and the constant [MAX_CONVERSATION_LENGTH] of [src/config.py], followed
    by the properties of the conversational core.

    Conventions.
    - A Python [str] is a [string]: the UTF-8 encoding of the text.
      Concatenation, equality, and the search of an ASCII word are the same
      on the encoding as on the characters; a slice counts characters.
    - [str.lower] and [str.strip] follow the tables of the Unicode
      standard, which the program does not contain.  [PyStr.lower] and
      [PyStr.strip] are the two on ASCII text, and the methods of
      [ChatbotEngine] are first given with them.  The module [AnyText]
      gives the methods that lowercase or trim with the two functions as
      parameters; what is stated there holds whatever the tables are.
    - A Python [float] is a binary64 [float]; its arithmetic is the
      kernel's, its rendering by a format specification is computed from
      the exact value of the number.
    - Methods that read or write [self], draw random numbers, read the
      clock, print or raise are computations of the monad [M] below. *)

From Stdlib Require Import ZArith List String Ascii Bool Lia.
From Stdlib Require Import Uint63 PrimFloat SpecFloat FloatOps DecimalString.
From stdpp Require Import base strings gmap.

Set Warnings "-inexact-float,-register-all".

Local Open Scope string_scope.
Local Open Scope Z_scope.

(** ** Strings *)

Module PyStr.

(** The double quote character, for templates that quote a command. *)
Definition dq : string := String (ascii_of_nat 34) EmptyString.

(** The line feed that separates the lines of a template. *)
Definition nl : string := String (ascii_of_nat 10) EmptyString.

Definition lower_char (c : ascii) : ascii :=
  let n := nat_of_ascii c in
  if ((65 <=? n) && (n <=? 90))%nat then ascii_of_nat (n + 32) else c.

(** [s.lower()] *)
Fixpoint lower (s : string) : string :=
  match s with
  | EmptyString => EmptyString
  | String c s' => String (lower_char c) (lower s')
  end.

(** [c.isspace()] on the ASCII range: TAB, LF, VT, FF, CR, the four
    separators FS GS RS US, and the space. *)
Definition isspace (c : ascii) : bool :=
  let n := nat_of_ascii c in
  (((9 <=? n) && (n <=? 13)) || ((28 <=? n) && (n <=? 32)))%nat.

Fixpoint lstrip (s : string) : string :=
  match s with
  | EmptyString => EmptyString
  | String c s' => if isspace c then lstrip s' else s
  end.

Fixpoint rstrip (s : string) : string :=
  match s with
  | EmptyString => EmptyString
  | String c s' =>
      match rstrip s' with
      | EmptyString => if isspace c then EmptyString else String c EmptyString
      | r => String c r
      end
  end.

(** [s.strip()] *)
Definition strip (s : string) : string := rstrip (lstrip s).

(** [s.startswith(p)] *)
Fixpoint startswith (p s : string) : bool :=
  match p, s with
  | EmptyString, _ => true
  | String _ _, EmptyString => false
  | String a p', String b s' => if Ascii.eqb a b then startswith p' s' else false
  end.

(** [sub in s] *)
Fixpoint contains (sub s : string) : bool :=
  match s with
  | EmptyString => startswith sub EmptyString
  | String _ s' => startswith sub s || contains sub s'
  end.

(** A byte that continues a character of the UTF-8 encoding: one of the
    form 10xxxxxx. *)
Definition is_continuation (c : ascii) : bool :=
  let n := nat_of_ascii c in ((128 <=? n) && (n <? 192))%nat.

(** [s[:n]], the first [n] characters: a character is a byte that is not a
    continuation, with the continuations that follow it. *)
Fixpoint take (n : nat) (s : string) : string :=
  match s with
  | EmptyString => EmptyString
  | String c s' =>
      if is_continuation c then String c (take n s')
      else
        match n with
        | O => EmptyString
        | S n' => String c (take n' s')
        end
  end.

(** [sep.join(l)] *)
Fixpoint join (sep : string) (l : list string) : string :=
  match l with
  | [] => EmptyString
  | [x] => x
  | x :: l' => x +:+ sep +:+ join sep l'
  end.

(** [any(word in s for word in words)] *)
Definition any_in (words : list string) (s : string) : bool :=
  existsb (fun word => contains word s) words.

(** [str(n)] for an integer. *)
Definition of_Z (n : Z) : string := NilZero.string_of_int (Z.to_int n).

End PyStr.

(** ** Floats and their format specifications *)

Module PyFloat.

Local Open Scope float_scope.

(** [float(n)] for an integer of the range the program uses. *)
Definition of_Z (n : Z) : float :=
  if (0 <=? n)%Z then of_uint63 (Uint63.of_Z n)
  else - of_uint63 (Uint63.of_Z (- n)).

(** [a > b] *)
Definition gt (a b : float) : bool := ltb b a.

(** [max(0, x)]: the first argument unless the second is greater. *)
Definition max0 (x : float) : float := if gt x 0 then x else 0.

(** [sum(l)], the floats added from left to right. *)
Definition sum (l : list float) : float := fold_left add l 0.

(** The integer nearest to [m * 2^e * 10^p], ties to even. *)
Definition scaled_round (p : nat) (m : positive) (e : Z) : Z :=
  let num := (Z.pos m * 10 ^ Z.of_nat p)%Z in
  if (0 <=? e)%Z then (num * 2 ^ e)%Z
  else
    let den := (2 ^ (- e))%Z in
    let q := (num / den)%Z in
    let r := (num mod den)%Z in
    match (2 * r ?= den)%Z with
    | Lt => q
    | Gt => (q + 1)%Z
    | Eq => if Z.even q then q else (q + 1)%Z
    end.

(** [n] written with at least [p] digits, zeros on the left. *)
Definition zero_pad (p : nat) (n : Z) : string :=
  let d := PyStr.of_Z n in
  String.concat "" (repeat "0"%string (p - String.length d)) +:+ d.

(** The digits of a scaled value [n = round(|x| * 10^p)]. *)
Definition fixed_digits (p : nat) (n : Z) : string :=
  let scale := (10 ^ Z.of_nat p)%Z in
  match p with
  | O => PyStr.of_Z n
  | _ => PyStr.of_Z (n / scale) +:+ "." +:+ zero_pad p (n mod scale)
  end.

Definition sign_str (s : bool) : string := if s then "-" else "".

(** [format(x, '.pf')]: fixed notation with [p] digits after the point,
    correctly rounded from the exact value of [x]. *)
Definition format_f (p : nat) (x : float) : string :=
  match Prim2SF x with
  | S754_nan => "nan"
  | S754_infinity s => sign_str s +:+ "inf"
  | S754_zero s => sign_str s +:+ fixed_digits p 0
  | S754_finite s m e => sign_str s +:+ fixed_digits p (scaled_round p m e)
  end.

(** [format(x, '.p%')]: the number times one hundred in fixed notation,
    then a percent sign. *)
Definition format_pct (p : nat) (x : float) : string :=
  format_f p (x * 100) +:+ "%".

End PyFloat.


(** ** Values, exceptions and effects *)

(** A decoded JSON value: what a field of the request body can hold. *)
Inductive pyval :=
| PNone
| PBool (b : bool)
| PInt (n : Z)
| PFloat (x : float)
| PStr (s : string)
| PList (l : list pyval)
| PDict (d : list (string * pyval)).

Coercion PStr : string >-> pyval.

(** [bool(v)]: the truth value that [if v] and [not v] test. *)
Definition truthy (v : pyval) : bool :=
  match v with
  | PNone => false
  | PBool b => b
  | PInt n => negb (n =? 0)
  | PFloat x => negb (PrimFloat.eqb x 0)
  | PStr s => negb (String.eqb s "")
  | PList l => match l with [] => false | _ => true end
  | PDict d => match d with [] => false | _ => true end
  end.

(** [type(v).__name__] *)
Definition type_name (v : pyval) : string :=
  match v with
  | PNone => "NoneType"
  | PBool _ => "bool"
  | PInt _ => "int"
  | PFloat _ => "float"
  | PStr _ => "str"
  | PList _ => "list"
  | PDict _ => "dict"
  end.

(** The text of a [str] value. *)
Definition str_of (v : pyval) : string :=
  match v with PStr s => s | _ => "" end.

(** Exceptions, all of them subclasses of [Exception]: the built-in ones by
    class name and message, and the HTTP error of the web framework. *)
Inductive exn :=
| Exception (cls : string) (msg : string)
| HTTPException (status_code : Z) (detail : string).

(** [str(e)]; an HTTP error prints as its status and its detail. *)
Definition str_exn (e : exn) : string :=
  match e with
  | Exception _ msg => msg
  | HTTPException c d => PyStr.of_Z c +:+ ": " +:+ d
  end.

Inductive res (A : Type) :=
| Ok (a : A)
| Raise (e : exn).
Arguments Ok {A} a.
Arguments Raise {A} e.

(** What a call reads and writes outside [self]: the random generator (its
    successive raw draws, and how many were consumed), the clock (its
    successive readings, instants in microseconds from the first instant of
    the calendar, [datetime.min], and how many were taken), the standard
    output, and a ghost log of the classifier and the handlers that were
    entered ([detect_ml_intent] and the [handle_] methods). *)
Record Env := {
  entropy : nat -> N;
  drawn : nat;
  clock : nat -> Z;
  ticks : nat;
  stdout : list string;
  entered : list string
}.

(** A method on an object of state [S]: from the object and the
    environment to a result or an exception, with both updated.  What was
    written before an exception is raised stays written. *)
Definition M (S A : Type) : Type := S -> Env -> res A * S * Env.

Definition ret {S A} (a : A) : M S A := fun s w => (Ok a, s, w).

Definition bind {S A B} (m : M S A) (k : A -> M S B) : M S B :=
  fun s w =>
    match m s w with
    | (Ok a, s', w') => k a s' w'
    | (Raise e, s', w') => (Raise e, s', w')
    end.

Definition raise {S A} (e : exn) : M S A := fun s w => (Raise e, s, w).

(** [try: body except Exception as e: handler(e)] *)
Definition try_except {S A} (body : M S A) (handler : exn -> M S A) : M S A :=
  fun s w =>
    match body s w with
    | (Ok a, s', w') => (Ok a, s', w')
    | (Raise e, s', w') => handler e s' w'
    end.

Definition get {S} : M S S := fun s w => (Ok s, s, w).
Definition modify {S} (f : S -> S) : M S unit := fun s w => (Ok tt, f s, w).

(** Run a method of a component [T] of the object, reached by [proj] and
    written back by [upd]. *)
Definition zoom {S T A} (proj : S -> T) (upd : T -> S -> S) (m : M T A) : M S A :=
  fun s w =>
    match m (proj s) w with
    | (r, t', w') => (r, upd t' s, w')
    end.

Declare Scope py_scope.
Delimit Scope py_scope with py.
Notation "x <- c1 ;; c2" := (bind c1 (fun x => c2))
  (at level 100, c1 at next level, right associativity) : py_scope.
Notation "c1 ;; c2" := (bind c1 (fun _ => c2))
  (at level 100, right associativity) : py_scope.
Local Open Scope py_scope.

(** [random.random()]: 53 random bits scaled to the unit interval. *)
Definition random_unit (raw : N) : float :=
  (of_uint63 (Uint63.of_Z (Z.of_N (raw mod 2 ^ 53))) / 9007199254740992)%float.

(** The environment once a draw was consumed, the clock was read, a line
    was printed, a method was entered. *)
Definition drew (w : Env) : Env :=
  {| entropy := entropy w; drawn := Datatypes.S (drawn w); clock := clock w;
     ticks := ticks w; stdout := stdout w; entered := entered w |}.

Definition ticked (w : Env) : Env :=
  {| entropy := entropy w; drawn := drawn w; clock := clock w;
     ticks := Datatypes.S (ticks w); stdout := stdout w; entered := entered w |}.

Definition printed (line : string) (w : Env) : Env :=
  {| entropy := entropy w; drawn := drawn w; clock := clock w;
     ticks := ticks w; stdout := stdout w ++ [line]; entered := entered w |}.

Definition logged (name : string) (w : Env) : Env :=
  {| entropy := entropy w; drawn := drawn w; clock := clock w;
     ticks := ticks w; stdout := stdout w; entered := entered w ++ [name] |}.

Definition next_draw {S} : M S N :=
  fun s w => (Ok (entropy w (drawn w)), s, drew w).

(** [random.uniform(a, b)] is [a + (b - a) * random()]. *)
Definition uniform {S} (a b : float) : M S float :=
  raw <- next_draw ;; ret (a + (b - a) * random_unit raw)%float.

(** The generator's draw of an index below [n]. *)
Definition randbelow {S} (n : nat) : M S nat :=
  raw <- next_draw ;; ret (N.to_nat raw mod n)%nat.

(** [random.choice(seq)] *)
Definition choice {S A} (seq : list A) : M S A :=
  match seq with
  | [] => raise (Exception "IndexError" "Cannot choose from an empty sequence")
  | d :: _ => i <- randbelow (length seq) ;; ret (nth i seq d)
  end.

(** [random.randint(a, b)] *)
Definition randint {S} (a b : Z) : M S Z :=
  i <- randbelow (Z.to_nat (b - a + 1)) ;; ret (a + Z.of_nat i).

(** [datetime.now()], in microseconds from [datetime.min]. *)
Definition now {S} : M S Z :=
  fun s w => (Ok (clock w (ticks w)), s, ticked w).

(** [timedelta.total_seconds()] of a difference of two readings. *)
Definition total_seconds (micro : Z) : float :=
  (PyFloat.of_Z micro / 1000000)%float.

(** [time.sleep(x)]: nothing but time passes, and the readings of the clock
    are arbitrary already. *)
Definition sleep {S} (x : float) : M S unit := ret tt.

Definition print {S} (line : string) : M S unit :=
  fun s w => (Ok tt, s, printed line w).

(** Ghost: record that the method [name] was entered. *)
Definition enter {S} (name : string) : M S unit :=
  fun s w => (Ok tt, s, logged name w).

(** [v.lower()]: only a [str] has the method. *)
Definition py_lower {S} (v : pyval) : M S string :=
  match v with
  | PStr s => ret (PyStr.lower s)
  | _ => raise (Exception "AttributeError"
                  ("'" +:+ type_name v +:+ "' object has no attribute 'lower'"))
  end.

(** [l[start:]] *)
Definition slice_from {A} (start : Z) (l : list A) : list A :=
  let len := Z.of_nat (length l) in
  let i := if start <? 0 then Z.max (len + start) 0 else Z.min start len in
  skipn (Z.to_nat i) l.

(** ** Configuration ([src/config.py]) *)

Module config.
Definition MAX_CONVERSATION_LENGTH : Z := 50.
End config.

(** ** The records exchanged with the numeric collaborator *)

Module Prediction.
Record t := {
  prediction : float;
  predictions_detail : list float;
  confidence : float;
  model_name : string;
  accuracy : float;
  mae : float;
  dates : list Z  (* the instants that the source renders as year-month-day *)
}.
End Prediction.

Module Training.
Record t := {
  model_name : string;
  score : float;
  mae : float;
  training_time : float;
  improvement : float
}.
End Training.

Module Analysis.
Record t := {
  trend : string;
  correlations : list string;
  anomalies : Z;
  insights : string;
  data_points : Z;
  date_range : string
}.
End Analysis.

(** What [get_model_info] returns. *)
Module ModelInfo.
Record t := {
  model_name : string;
  is_trained : bool;
  last_training : option Z;  (* the instant that the source renders in ISO format *)
  model_exists : bool;
  data_points : Z
}.
End ModelInfo.

(** The three operations the chatbot calls on [self.ml_engine]; each may
    raise.  [MLEngine] below is the instance the program constructs. *)
Class Collaborator (E : Type) := {
  predict_next_values : Z -> M E Prediction.t;
  train_model : M E Training.t;
  analyze_data : M E Analysis.t
}.

(** ** The conversational core ([src/chatbot.py]) *)

Record Message := { role : string; content : pyval }.

Inductive Intent := greeting | prediction | training | analysis | general.

Record IntentResult := { intent : Intent; confidence : float }.

(** [self.simulation_responses], by key. *)
Definition simulation_responses (key : Intent) : list string :=
  match key with
  | greeting =>
      [ "Hello! 👋 I'm your AI-powered predictive assistant! How can I help you today?";
        "Hi there! 🤖 Ready to explore data predictions together?";
        "Welcome! I'm here to help with ML analysis and predictions!" ]
  | prediction =>
      [ "🔮 Analyzing your data and generating predictions...";
        "📊 Running prediction algorithms...";
        "🎯 Forecasting based on detected patterns..." ]
  | training =>
      [ "🤖 Initiating model training process...";
        "🧠 Optimizing hyperparameters...";
        "⚡ The model is learning from your data..." ]
  | analysis =>
      [ "📈 Analyzing trends in progress...";
        "🔍 Searching for patterns in the dataset...";
        "📊 Generating comprehensive analysis report..." ]
  | general =>
      [ "Interesting! I can help you with that using my ML capabilities.";
        "Great question! Let me process that with my predictive algorithms.";
        "I'll analyze your request using my advanced ML models!" ]
  end.

(** [ml_keywords] of [detect_ml_intent], in the order of the literal, which
    is the order a [dict] is iterated in. *)
Definition ml_keywords : list (string * Intent) :=
  [ ("predict", prediction); ("forecast", prediction);
    ("prediction", prediction); ("future", prediction);
    ("tomorrow", prediction); ("next", prediction);
    ("train", training); ("training", training); ("learn", training);
    ("model", training); ("optimize", training);
    ("analyze", analysis); ("analysis", analysis); ("trend", analysis);
    ("pattern", analysis); ("insight", analysis); ("data", analysis);
    ("hello", greeting); ("hi", greeting); ("hey", greeting);
    ("good", greeting) ].

(** [instant_cache] of [get_instant_response], in the order of the literal. *)
Definition instant_cache : list (string * string) :=
  [ ("hello", "Hello! 👋 I'm your AI-powered predictive assistant! Ready for instant predictions?");
    ("hi", "Hi there! 🤖 Ready to explore data predictions together?");
    ("hey", "Hey! ⚡ Fast predictions at your service!");
    ("status", "✅ **System Status:** All operational | Models: Ready | Response: ⚡ Instant");
    ("help", "💡 **Quick Commands:** predict, train, analyze, status | What do you need?");
    ("test", "🧪 **Test Successful!** All systems running at optimal speed ⚡");
    ("speed", "⚡ **Ultra-Fast Mode Activated!** Response time: <100ms") ].

Definition quick_patterns : list string := ["quick"; "fast"; "rapid"; "instant"].

Definition lightning_reply : string :=
  "⚡ **Lightning Speed Activated!** Ready for instant ML predictions and analysis!".

(** [d[k]] when [k in d], for a dictionary kept in the order of its literal. *)
Fixpoint dict_get {V} (k : string) (d : list (string * V)) : option V :=
  match d with
  | [] => None
  | (k', v) :: d' => if String.eqb k k' then Some v else dict_get k d'
  end.

(** The first item of a dictionary whose key occurs in [s]: the loop
    [for key, v in d.items(): if key in s: return v]. *)
Definition first_key_in {V} (s : string) (d : list (string * V)) : option (string * V) :=
  find (fun item => PyStr.contains (fst item) s) d.

(** [l[-cap:]] when [l] is longer than [cap], else [l]. *)
Definition keep_last {A} (cap : Z) (l : list A) : list A :=
  if Z.of_nat (length l) >? cap then slice_from (- cap) l else l.

(** The reply templates of the handlers. *)
Definition prediction_response (intro : string) (prediction_result : Prediction.t) : string :=
  intro +:+
  "

🔮 **Prediction Generated Successfully!**

**Average Forecast**: " +:+
  PyFloat.format_f 2 (Prediction.prediction prediction_result) +:+
  "
**Confidence Level**: " +:+
  PyFloat.format_pct 1 (Prediction.confidence prediction_result) +:+
  "
**Model Used**: " +:+
  Prediction.model_name prediction_result +:+
  "

📊 **Model Performance Metrics**:
• Accuracy: " +:+
  PyFloat.format_pct 1 (Prediction.accuracy prediction_result) +:+
  "
• Mean Absolute Error: " +:+
  PyFloat.format_f 2 (Prediction.mae prediction_result) +:+
  "

💡 **Key Insight**: The trend appears " +:+
  (if PyFloat.gt (Prediction.prediction prediction_result) 150 then "positive" else "stable") +:+
  " based on historical patterns.

Would you like me to explain the methodology or generate additional forecasts?".

Definition training_response (intro : string) (training_result : Training.t) : string :=
  intro +:+
  "

🤖 **Model Training Completed Successfully!**

**New Model**: " +:+
  Training.model_name training_result +:+
  "
**Performance Score**: " +:+
  PyFloat.format_pct 1 (Training.score training_result) +:+
  "
**Training Duration**: " +:+
  PyFloat.format_f 1 (Training.training_time training_result) +:+
  " seconds

📈 **Performance Improvements**:
• Accuracy: +" +:+
  PyFloat.format_pct 1 (Training.improvement training_result) +:+
  " vs previous model
• Overfitting: Well controlled ✅
• Convergence: Optimal ✅

🚀 **The model is now ready for ultra-precise predictions!**

You can now ask me for predictions using this newly trained model!".

Definition analysis_response (intro : string) (analysis_result : Analysis.t) : string :=
  intro +:+
  "

📊 **Comprehensive Data Analysis Complete**

**📈 Overall Trend**: " +:+
  Analysis.trend analysis_result +:+
  "
**🔗 Strong Correlations**: " +:+
  PyStr.join ", " (Analysis.correlations analysis_result) +:+
  "
**⚠️ Anomalies Detected**: " +:+
  PyStr.of_Z (Analysis.anomalies analysis_result) +:+
  " suspicious data points
**📊 Dataset Volume**: " +:+
  PyStr.of_Z (Analysis.data_points analysis_result) +:+
  " records

💡 **Key Insights**:
" +:+
  Analysis.insights analysis_result +:+
  "

🔮 **Recommendations**:
• " +:+
  (if String.eqb (Analysis.trend analysis_result) "Increasing" then "Maintain current strategy" else "Adjust strategy to reverse the trend") +:+
  "
• Monitor variables with strong correlations
• Investigate detected anomalies

Would you like a prediction based on this analysis?".

Definition how_it_works : string :=
  "🤖 **How I Work - Technical Overview**

I'm an AI assistant specialized in predictive analytics! Here's what I can do:

🔮 **Predictions**: " +:+
  PyStr.dq +:+
  "Predict tomorrow's sales" +:+
  PyStr.dq +:+
  "
🤖 **Model Training**: " +:+
  PyStr.dq +:+
  "Train a new model" +:+
  PyStr.dq +:+
  " 
📊 **Data Analysis**: " +:+
  PyStr.dq +:+
  "Analyze current trends" +:+
  PyStr.dq +:+
  "

**Core Technologies**:
• Machine Learning (RandomForest, AutoML)
• Time series analysis
• Anomaly detection
• Automated feature engineering

**Supported Data Types**:
• Sales, revenue, business metrics
• Temporal data with seasonality
• Multi-variable datasets (weather, marketing, etc.)

Try a command to see the magic in action! ✨".

Definition help_commands : string :=
  "💡 **Help - Available Commands**

**🔮 For Predictions:**
• " +:+
  PyStr.dq +:+
  "Predict tomorrow's sales" +:+
  PyStr.dq +:+
  "
• " +:+
  PyStr.dq +:+
  "Forecast next 7 days" +:+
  PyStr.dq +:+
  "
• " +:+
  PyStr.dq +:+
  "What's the trend analysis?" +:+
  PyStr.dq +:+
  "

**🤖 For Training:**
• " +:+
  PyStr.dq +:+
  "Train a new model" +:+
  PyStr.dq +:+
  "
• " +:+
  PyStr.dq +:+
  "Improve accuracy" +:+
  PyStr.dq +:+
  "
• " +:+
  PyStr.dq +:+
  "Optimize parameters" +:+
  PyStr.dq +:+
  "

**📊 For Analysis:**
• " +:+
  PyStr.dq +:+
  "Analyze current data" +:+
  PyStr.dq +:+
  "
• " +:+
  PyStr.dq +:+
  "Show me trends" +:+
  PyStr.dq +:+
  "
• " +:+
  PyStr.dq +:+
  "Detect anomalies" +:+
  PyStr.dq +:+
  "

**💬 General Questions:**
• " +:+
  PyStr.dq +:+
  "How does this work?" +:+
  PyStr.dq +:+
  "
• " +:+
  PyStr.dq +:+
  "What data do you use?" +:+
  PyStr.dq +:+
  "
• " +:+
  PyStr.dq +:+
  "Explain your methods" +:+
  PyStr.dq +:+
  "

What interests you the most?".

Definition data_sources : string :=
  "📊 **My Data Sources & Processing**

**📈 Primary Dataset:**
• 700+ days of sales data
• Variables: sales, weather, marketing, calendar
• Period: 2023-2024 (synthetic but realistic data)

**🔍 Features Used:**
• `sales` : Daily sales (target variable)
• `day_of_week` : Day of week (0-6)
• `month` : Month (1-12) 
• `is_weekend` : Weekend flag (0/1)
• `temperature` : Average temperature
• `marketing_spend` : Daily marketing budget

**🧠 Automated Preprocessing:**
• Missing value handling
• Feature normalization
• Temporal feature engineering
• Intelligent train/test split

The data is generated with realistic patterns: trend + seasonality + noise!".

Definition general_suffix (user_message : pyval) : string :=
  "

**💡 Based on your message (" +:+
  PyStr.dq +:+
  PyStr.take 50 (str_of user_message) +:+
  "..." +:+
  PyStr.dq +:+
  "), I can:**

• 🔮 Generate relevant predictions
• 📊 Analyze hidden patterns  
• 🤖 Train optimized models
• 💡 Provide actionable insights

**Quick Example:** Say " +:+
  PyStr.dq +:+
  "Predict tomorrow" +:+
  PyStr.dq +:+
  " and I'll show you my ML power! 

What would you like to explore?".

Record ChatbotEngine (E : Type) := {
  ml_engine : E;
  conversation_history : list Message
}.
Arguments ml_engine {E} _.
Arguments conversation_history {E} _.
Arguments Build_ChatbotEngine {E} _ _.

Section Chatbot.

Context {E : Type} {collaborator : Collaborator E}.

(** [ChatbotEngine()], given the engine it constructs. *)
Definition ChatbotEngine_init (engine : E) : ChatbotEngine E :=
  {| ml_engine := engine; conversation_history := [] |}.

(** A call [self.ml_engine.method(...)]. *)
Definition on_ml_engine {A} (method : M E A) : M (ChatbotEngine E) A :=
  zoom ml_engine
    (fun e self => {| ml_engine := e; conversation_history := conversation_history self |})
    method.

Definition add_message (role : string) (content : pyval) : M (ChatbotEngine E) unit :=
  modify (fun self =>
    {| ml_engine := ml_engine self;
       conversation_history :=
         keep_last config.MAX_CONVERSATION_LENGTH
           (conversation_history self ++ [{| role := role; content := content |}]) |}).

Definition detect_ml_intent (user_message : pyval) : M (ChatbotEngine E) IntentResult :=
  enter "detect_ml_intent" ;;
  user_lower <- py_lower user_message ;;
  match first_key_in user_lower ml_keywords with
  | Some (_, intent) => ret {| intent := intent; confidence := 0.8 |}
  | None => ret {| intent := general; confidence := 0.9 |}
  end.

Definition simulate_typing_delay : M (ChatbotEngine E) unit :=
  delay <- uniform 0.1 0.3 ;;
  sleep delay.

Definition get_instant_response (message : pyval) : M (ChatbotEngine E) (option string) :=
  lowered <- py_lower message ;;
  let msg_lower := PyStr.strip lowered in
  match dict_get msg_lower instant_cache with
  | Some reply => ret (Some reply)
  | None =>
      match first_key_in msg_lower instant_cache with
      | Some (_, response) => ret (Some response)
      | None =>
          if PyStr.any_in quick_patterns msg_lower then ret (Some lightning_reply)
          else ret None
      end
  end.

Definition handle_greeting : M (ChatbotEngine E) string :=
  enter "handle_greeting" ;;
  response <- choice (simulation_responses greeting) ;;
  add_message "assistant" response ;;
  ret response.

Definition handle_prediction_request (user_message : pyval) : M (ChatbotEngine E) string :=
  enter "handle_prediction_request" ;;
  try_except
    (intro <- choice (simulation_responses prediction) ;;
     prediction_result <- on_ml_engine (predict_next_values 7) ;;
     let response := prediction_response intro prediction_result in
     add_message "assistant" response ;;
     ret response)
    (fun e =>
       let error_msg := "❌ Error during prediction: " +:+ str_exn e in
       add_message "assistant" error_msg ;;
       ret error_msg).

Definition handle_training_request (user_message : pyval) : M (ChatbotEngine E) string :=
  enter "handle_training_request" ;;
  try_except
    (intro <- choice (simulation_responses training) ;;
     training_result <- on_ml_engine train_model ;;
     let response := training_response intro training_result in
     add_message "assistant" response ;;
     ret response)
    (fun e =>
       let error_msg := "❌ Error during training: " +:+ str_exn e in
       add_message "assistant" error_msg ;;
       ret error_msg).

Definition handle_analysis_request (user_message : pyval) : M (ChatbotEngine E) string :=
  enter "handle_analysis_request" ;;
  try_except
    (intro <- choice (simulation_responses analysis) ;;
     analysis_result <- on_ml_engine analyze_data ;;
     let response := analysis_response intro analysis_result in
     add_message "assistant" response ;;
     ret response)
    (fun e =>
       let error_msg := "❌ Error during analysis: " +:+ str_exn e in
       add_message "assistant" error_msg ;;
       ret error_msg).

Definition handle_general_request (user_message : pyval) : M (ChatbotEngine E) string :=
  enter "handle_general_request" ;;
  user_lower <- py_lower user_message ;;
  response <-
    (if PyStr.any_in ["how"; "work"; "explain"; "methodology"] user_lower then
       ret how_it_works
     else if PyStr.any_in ["help"; "assistance"; "commands"] user_lower then
       ret help_commands
     else if PyStr.any_in ["data"; "dataset"; "information"] user_lower then
       ret data_sources
     else
       (picked <- choice (simulation_responses general) ;;
        ret (picked +:+ general_suffix user_message))) ;;
  add_message "assistant" response ;;
  ret response.

(** [bool(r)] for what [get_instant_response] returns: a reply or [None]. *)
Definition is_reply (r : option string) : bool :=
  match r with
  | Some reply => negb (String.eqb reply "")
  | None => false
  end.

(** The coroutine runs to completion once awaited: it never suspends. *)
Definition process_message (user_message : pyval) : M (ChatbotEngine E) string :=
  add_message "user" user_message ;;
  instant_response <- get_instant_response user_message ;;
  if is_reply instant_response then
    let reply := default "" instant_response in
    add_message "assistant" reply ;;
    ret reply
  else
    simulate_typing_delay ;;
    intent_result <- detect_ml_intent user_message ;;
    match intent intent_result with
    | greeting => handle_greeting
    | prediction => handle_prediction_request user_message
    | training => handle_training_request user_message
    | analysis => handle_analysis_request user_message
    | general => handle_general_request user_message
    end.

Definition get_conversation_history : M (ChatbotEngine E) (list Message) :=
  self <- get ;;
  ret (conversation_history self).

Definition clear_conversation : M (ChatbotEngine E) unit :=
  modify (fun self => {| ml_engine := ml_engine self; conversation_history := [] |}).

(** ** The chat endpoint ([src/api.py]), on the global [chatbot] *)

Definition chat_endpoint (data : gmap string pyval)
  : M (ChatbotEngine E) (list (string * pyval)) :=
  try_except
    (let message := default (PStr "") (data !! "message") in
     (if negb (truthy message) then raise (HTTPException 400 "Message requis")
      else ret tt) ;;
     response <- process_message message ;;
     ret [ ("response", PStr response);
           ("conversation_id", PStr "default");
           ("processing_time", PStr "⚡ Instant") ])
    (fun e => raise (HTTPException 500 ("Erreur de chat: " +:+ str_exn e))).

End Chatbot.

(** ** The methods that lowercase or trim, for any tables

    [detect_ml_intent], [get_instant_response], [handle_general_request]
    and [process_message] once more, with [str.lower] and [str.strip] as
    the parameters [lower] and [strip].  At [PyStr.lower] and [PyStr.strip]
    they are the definitions above. *)

Module AnyText.

Section Methods.

Context {E : Type} {collaborator : Collaborator E}.

Variables (lower strip : string -> string).

(** [v.lower()]: only a [str] has the method. *)
Definition py_lower {S} (v : pyval) : M S string :=
  match v with
  | PStr s => ret (lower s)
  | _ => raise (Exception "AttributeError"
                  ("'" +:+ type_name v +:+ "' object has no attribute 'lower'"))
  end.

Definition detect_ml_intent (user_message : pyval) : M (ChatbotEngine E) IntentResult :=
  enter "detect_ml_intent" ;;
  user_lower <- py_lower user_message ;;
  match first_key_in user_lower ml_keywords with
  | Some (_, intent) => ret {| intent := intent; confidence := 0.8 |}
  | None => ret {| intent := general; confidence := 0.9 |}
  end.

Definition get_instant_response (message : pyval) : M (ChatbotEngine E) (option string) :=
  lowered <- py_lower message ;;
  let msg_lower := strip lowered in
  match dict_get msg_lower instant_cache with
  | Some reply => ret (Some reply)
  | None =>
      match first_key_in msg_lower instant_cache with
      | Some (_, response) => ret (Some response)
      | None =>
          if PyStr.any_in quick_patterns msg_lower then ret (Some lightning_reply)
          else ret None
      end
  end.

Definition handle_general_request (user_message : pyval) : M (ChatbotEngine E) string :=
  enter "handle_general_request" ;;
  user_lower <- py_lower user_message ;;
  response <-
    (if PyStr.any_in ["how"; "work"; "explain"; "methodology"] user_lower then
       ret how_it_works
     else if PyStr.any_in ["help"; "assistance"; "commands"] user_lower then
       ret help_commands
     else if PyStr.any_in ["data"; "dataset"; "information"] user_lower then
       ret data_sources
     else
       (picked <- choice (simulation_responses general) ;;
        ret (picked +:+ general_suffix user_message))) ;;
  add_message "assistant" response ;;
  ret response.

Definition process_message (user_message : pyval) : M (ChatbotEngine E) string :=
  add_message "user" user_message ;;
  instant_response <- get_instant_response user_message ;;
  if is_reply instant_response then
    let reply := default "" instant_response in
    add_message "assistant" reply ;;
    ret reply
  else
    simulate_typing_delay ;;
    intent_result <- detect_ml_intent user_message ;;
    match intent intent_result with
    | greeting => handle_greeting
    | prediction => handle_prediction_request user_message
    | training => handle_training_request user_message
    | analysis => handle_analysis_request user_message
    | general => handle_general_request user_message
    end.

End Methods.

End AnyText.

(** ** The simulated engine ([src/ml_engine.py]) *)

Module MLEngine.

Local Open Scope float_scope.

(** A day of [historical_data]. *)
Record datum := {
  day : Z;
  value : float;
  day_of_week : Z;
  month : Z;
  is_weekend : Z
}.

Record t := {
  model_name : string;
  is_trained : bool;
  last_training_time : option Z;
  model_data : gmap string float;
  historical_data : list datum
}.

(** [MLEngine()], given the days that [generate_sample_data] draws. *)
Definition init (sample_data : list datum) : t :=
  {| model_name := "SimulatedML_v1";
     is_trained := false;
     last_training_time := None;
     model_data := ∅;
     historical_data := sample_data |}.

Definition set_model_data (d : gmap string float) (self : t) : t :=
  {| model_name := model_name self; is_trained := is_trained self;
     last_training_time := last_training_time self; model_data := d;
     historical_data := historical_data self |}.

Definition set_is_trained (b : bool) (self : t) : t :=
  {| model_name := model_name self; is_trained := b;
     last_training_time := last_training_time self; model_data := model_data self;
     historical_data := historical_data self |}.

Definition set_last_training_time (time : option Z) (self : t) : t :=
  {| model_name := model_name self; is_trained := is_trained self;
     last_training_time := time; model_data := model_data self;
     historical_data := historical_data self |}.

(** [total / len(l)] for a sum [total] of the floats of [l]: the sum of no
    float is the integer zero, and dividing it by zero raises. *)
Definition div_len {S} (total : float) (len : nat) : M S float :=
  match len with
  | O => raise (Exception "ZeroDivisionError" "division by zero")
  | _ => ret (total / PyFloat.of_Z (Z.of_nat len))
  end.

(** [d[key]] *)
Definition getitem {S} (d : gmap string float) (key : string) : M S float :=
  match d !! key with
  | Some x => ret x
  | None => raise (Exception "KeyError" ("'" +:+ key +:+ "'"))
  end.

(** [l[-1]] *)
Definition last_item {S A} (l : list A) : M S A :=
  match last l with
  | Some x => ret x
  | None => raise (Exception "IndexError" "list index out of range")
  end.

(** [l[0]] *)
Definition first_item {S A} (l : list A) : M S A :=
  match l with
  | x :: _ => ret x
  | [] => raise (Exception "IndexError" "list index out of range")
  end.

(** [[f(i) for i in l]], the calls in order. *)
Fixpoint for_each {S A B} (f : A -> M S B) (l : list A) : M S (list B) :=
  match l with
  | [] => ret []
  | i :: l' => x <- f i ;; xs <- for_each f l' ;; ret (x :: xs)
  end.

(** [range(a, b)] *)
Definition range (a b : Z) : list Z :=
  map (fun k => a + Z.of_nat k)%Z (seq 0 (Z.to_nat (b - a))).

(** [max(l)] and [min(l)] of a list with a first element. *)
Definition max_of (first : float) (rest : list float) : float :=
  fold_left (fun best x => if PyFloat.gt x best then x else best) rest first.

Definition min_of (first : float) (rest : list float) : float :=
  fold_left (fun best x => if ltb x best then x else best) rest first.

Definition microseconds_per_day : Z := 86400000000.

(** [datetime.max], the last microsecond of the year 9999, day 3652059 of
    the calendar. *)
Definition datetime_max : Z := 3652059 * microseconds_per_day - 1.

(** [when + timedelta(days=i)]: the sum raises when it leaves the calendar.
    The day counts of [predict_next_values] are 1, 2, ... in this order, so
    the sum leaves the calendar long before a count leaves the range of
    [timedelta], which is 999999999 days. *)
Definition plus_days {S} (when i : Z) : M S Z :=
  let sum := (when + i * microseconds_per_day)%Z in
  if ((0 <=? sum) && (sum <=? datetime_max))%Z then ret sum
  else raise (Exception "OverflowError" "date value out of range").

Definition train_model : M t Training.t :=
  start_time <- now ;;
  print "🤖 Entraînement du modèle simulé..." ;;
  delay <- uniform 0.2 0.8 ;;
  sleep delay ;;
  self <- get ;;
  mean_value <- div_len (PyFloat.sum (map value (historical_data self)))
                        (length (historical_data self)) ;;
  trend_slope <- uniform 0.05 0.15 ;;
  seasonal_amplitude <- uniform 15 25 ;;
  noise_level <- uniform 5 15 ;;
  modify (set_model_data
            (<["mean_value" := mean_value]>
               (<["trend_slope" := trend_slope]>
                  (<["seasonal_amplitude" := seasonal_amplitude]>
                     (<["noise_level" := noise_level]> ∅))))) ;;
  modify (set_is_trained true) ;;
  trained_at <- now ;;
  modify (set_last_training_time (Some trained_at)) ;;
  end_time <- now ;;
  let training_time := total_seconds (end_time - start_time) in
  score <- uniform 0.85 0.95 ;;
  print ("✅ Modèle simulé entraîné ! Score: " +:+ PyFloat.format_f 3 score) ;;
  mae <- uniform 8 15 ;;
  improvement <- uniform 0.02 0.08 ;;
  ret {| Training.model_name := model_name self;
         Training.score := score;
         Training.mae := mae;
         Training.training_time := training_time;
         Training.improvement := improvement |}.

Definition predict_next_values (n_days : Z) : M t Prediction.t :=
  self <- get ;;
  (if negb (is_trained self) then (_ <- train_model ;; ret tt) else ret tt) ;;
  print ("🔮 Prédiction simulée des " +:+ PyStr.of_Z n_days +:+ " prochains jours...") ;;
  self <- get ;;
  last_day <- last_item (historical_data self) ;;
  let last_value := value last_day in
  predictions <-
    for_each
      (fun i =>
         slope <- getitem (model_data self) "trend_slope" ;;
         let trend := slope * PyFloat.of_Z i in
         variation <- uniform (-5) 5 ;;
         let predicted_value := last_value + trend + variation in
         ret (PyFloat.max0 predicted_value))
      (range 0 n_days) ;;
  avg_prediction <- div_len (PyFloat.sum predictions) (length predictions) ;;
  confidence <- uniform 0.85 0.95 ;;
  accuracy <- uniform 0.92 0.98 ;;
  mae <- uniform 5 12 ;;
  dates <- for_each (fun i => today <- now ;; plus_days today i)
                    (range 1 (n_days + 1)) ;;
  ret {| Prediction.prediction := avg_prediction;
         Prediction.predictions_detail := predictions;
         Prediction.confidence := confidence;
         Prediction.model_name := model_name self;
         Prediction.accuracy := accuracy;
         Prediction.mae := mae;
         Prediction.dates := dates |}.

Definition insights_text (avg_value max_value min_value seasonal_amplitude : float) : string :=
  "
        • Average value: " +:+
  PyFloat.format_f 1 avg_value +:+
  "
        • Peak maximum: " +:+
  PyFloat.format_f 1 max_value +:+
  "
        • Minimum value: " +:+
  PyFloat.format_f 1 min_value +:+
  "
        • Volatility: " +:+
  (if PyFloat.gt (max_value - min_value) 50 then "High" else "Moderate") +:+
  "
        • Seasonal pattern detected with amplitude ~" +:+
  PyFloat.format_f 1 seasonal_amplitude +:+
  "
        ".

Definition analyze_data : M t Analysis.t :=
  print "📊 Analyse simulée des données..." ;;
  self <- get ;;
  let values := map value (historical_data self) in
  let recent_values := slice_from (-30) values in
  newest <- last_item recent_values ;;
  oldest <- first_item recent_values ;;
  let trend := if PyFloat.gt newest oldest then "Increasing" else "Decreasing" in
  let correlations := ["day_of_week (0.45)"; "month (0.38)"; "is_weekend (0.32)"]%string in
  anomalies <- randint 2 8 ;;
  avg_value <- div_len (PyFloat.sum values) (length values) ;;
  first_value <- first_item values ;;
  let max_value := max_of first_value (tl values) in
  let min_value := min_of first_value (tl values) in
  let seasonal_amplitude := default 20 (model_data self !! "seasonal_amplitude") in
  let insights := insights_text avg_value max_value min_value seasonal_amplitude in
  ret {| Analysis.trend := trend;
         Analysis.correlations := correlations;
         Analysis.anomalies := anomalies;
         Analysis.insights := PyStr.strip insights;
         Analysis.data_points := Z.of_nat (length (historical_data self));
         Analysis.date_range := "365 simulated days" |}.

Definition get_model_info : M t ModelInfo.t :=
  self <- get ;;
  ret {| ModelInfo.model_name := model_name self;
         ModelInfo.is_trained := is_trained self;
         ModelInfo.last_training := last_training_time self;
         ModelInfo.model_exists := is_trained self;
         ModelInfo.data_points := Z.of_nat (length (historical_data self)) |}.

End MLEngine.

(** The engine as the chatbot's collaborator. *)
#[export] Instance MLEngine_collaborator : Collaborator MLEngine.t := {
  predict_next_values := MLEngine.predict_next_values;
  train_model := MLEngine.train_model;
  analyze_data := MLEngine.analyze_data
}.

(** ** The other endpoints ([src/api.py]), on the globals [chatbot] and [ml_engine] *)

Module api.

(** The two objects the module constructs: the chatbot, which has an engine
    of its own, and the engine the endpoints use. *)
Record globals := {
  chatbot : ChatbotEngine MLEngine.t;
  ml_engine : MLEngine.t
}.

(** A value of a response. *)
Inductive value :=
| Text (s : string)
| Flag (b : bool)
| Number (n : Z)
| History (h : list Message)
| PredictionOf (p : Prediction.t)
| TrainingOf (r : Training.t)
| AnalysisOf (a : Analysis.t)
| InfoOf (i : ModelInfo.t).

Definition response : Type := list (string * value).

(** A call on the global [chatbot], a call on the global [ml_engine]. *)
Definition on_chatbot {A} (method : M (ChatbotEngine MLEngine.t) A) : M globals A :=
  zoom chatbot (fun c g => {| chatbot := c; ml_engine := ml_engine g |}) method.

Definition on_engine {A} (method : M MLEngine.t A) : M globals A :=
  zoom ml_engine (fun e g => {| chatbot := chatbot g; ml_engine := e |}) method.

(** [POST /chat] *)
Definition chat (data : gmap string pyval) : M globals (list (string * pyval)) :=
  on_chatbot (chat_endpoint data).

(** [GET /conversation] *)
Definition get_conversation : M globals response :=
  try_except
    (history <- on_chatbot get_conversation_history ;;
     ret [("conversation", History history)])
    (fun e => raise (HTTPException 500 ("Erreur: " +:+ str_exn e))).

(** [DELETE /conversation] *)
Definition clear_conversation : M globals response :=
  try_except
    (on_chatbot clear_conversation ;;
     ret [("message", Text "✅ Conversation effacée")])
    (fun e => raise (HTTPException 500 ("Erreur: " +:+ str_exn e))).

(** [POST /predict], for a body whose fields are integers; no body is
    [None]. *)
Definition predict_endpoint (data : option (gmap string Z)) : M globals response :=
  try_except
    (let days :=
       match data with
       | Some d => if decide (d = ∅) then 7 else default 7 (d !! "days")
       | None => 7
       end in
     prediction <- on_engine (MLEngine.predict_next_values days) ;;
     ret [("status", Text "success"); ("prediction", PredictionOf prediction)])
    (fun e => raise (HTTPException 500 ("Erreur de prédiction: " +:+ str_exn e))).

(** [POST /train] *)
Definition train_endpoint (data : option (gmap string Z)) : M globals response :=
  try_except
    (result <- on_engine MLEngine.train_model ;;
     ret [("status", Text "success"); ("training_result", TrainingOf result)])
    (fun e => raise (HTTPException 500 ("Erreur d'entraînement: " +:+ str_exn e))).

(** [GET /analyze] *)
Definition analyze_endpoint : M globals response :=
  try_except
    (analysis <- on_engine MLEngine.analyze_data ;;
     ret [("status", Text "success"); ("analysis", AnalysisOf analysis)])
    (fun e => raise (HTTPException 500 ("Erreur d'analyse: " +:+ str_exn e))).

(** [GET /model/info] *)
Definition model_info : M globals response :=
  try_except
    (info <- on_engine MLEngine.get_model_info ;;
     ret [("status", Text "success"); ("model_info", InfoOf info)])
    (fun e => raise (HTTPException 500 ("Erreur: " +:+ str_exn e))).

(** [GET /health] *)
Definition health_check : M globals response :=
  try_except
    (model_info <- on_engine MLEngine.get_model_info ;;
     ret [ ("status", Text "🟢 healthy");
           ("api_version", Text "1.0.0");
           ("mode", Text "🆓 FREE");
           ("model_ready", Flag (ModelInfo.is_trained model_info));
           ("data_points", Number (ModelInfo.data_points model_info));
           ("message", Text "API fonctionnelle en mode gratuit !") ])
    (fun e => ret [("status", Text "🔴 unhealthy"); ("error", Text (str_exn e))]).

End api.

(** * Properties *)

Local Open Scope list_scope.

(** ** Definitions the statements use *)

(** A key without white space. *)
Definition spaceless (key : string) : bool :=
  forallb (fun c => negb (PyStr.isspace c)) (list_ascii_of_string key).

(** The last [n] elements of a list. *)
Definition lastn {A} (n : nat) (l : list A) : list A := skipn (length l - n) l.

Definition capacity : nat := Z.to_nat config.MAX_CONVERSATION_LENGTH.

(** The history after [add_message(role, content)]. *)
Definition appended (h : list Message) (role : string) (content : pyval) : list Message :=
  keep_last config.MAX_CONVERSATION_LENGTH (h ++ [{| role := role; content := content |}]).

(** A sequence of [append(role, content)] operations. *)
Fixpoint append_all {E} (ops : list (string * pyval)) : M (ChatbotEngine E) unit :=
  match ops with
  | [] => ret tt
  | (role, content) :: rest => add_message role content ;; append_all rest
  end.

Definition as_message (op : string * pyval) : Message :=
  {| role := fst op; content := snd op |}.

(** The lookup of the instant responses as the specification words it: the
    exact match of the trimmed lowercased input, then the first key, in
    enumeration order, that occurs in the lowercased input, then no match. *)
Definition two_tier_lookup (message : string) : option string :=
  let lowered := PyStr.lower message in
  match dict_get (PyStr.strip lowered) instant_cache with
  | Some reply => Some reply
  | None =>
      match first_key_in lowered instant_cache with
      | Some (_, reply) => Some reply
      | None => None
      end
  end.

(** The same with the tier the code has after these two: one of the quick
    patterns occurs in the lowercased input. *)
Definition three_tier_lookup (message : string) : option string :=
  match two_tier_lookup message with
  | Some reply => Some reply
  | None =>
      if PyStr.any_in quick_patterns (PyStr.lower message) then Some lightning_reply
      else None
  end.

(** The intent the classifier finds in a text. *)
Definition classified (msg : string) : IntentResult :=
  match first_key_in (PyStr.lower msg) ml_keywords with
  | Some (_, intent) => {| intent := intent; confidence := 0.8 |}
  | None => {| intent := general; confidence := 0.9 |}
  end.

Definition Intent_eqb (a b : Intent) : bool :=
  match a, b with
  | greeting, greeting | prediction, prediction | training, training
  | analysis, analysis | general, general => true
  | _, _ => false
  end.

(** The keywords of a category, in the order of [ml_keywords]. *)
Definition keywords_of (category : Intent) : list string :=
  map fst (filter (fun kw => Intent_eqb (snd kw) category) ml_keywords).

(** [data.get("message", "")] *)
Definition message_of (data : gmap string pyval) : pyval :=
  default (PStr "") (data !! "message").

(** The environment in which [process_message] calls the collaborator from
    a handler: a draw was consumed by the typing delay, the classifier and
    the handler were entered, a draw was consumed by the choice of the
    intro. *)
Definition env_at_collaborator_call (handler_name : string) (w : Env) : Env :=
  drew (logged handler_name (logged "detect_ml_intent" (drew w))).

Section Dispatch.

Context {E : Type} {collaborator : Collaborator E}.

(** The handler [process_message] dispatches an intent to. *)
Definition handler (i : Intent) (user_message : pyval) : M (ChatbotEngine E) string :=
  match i with
  | greeting => handle_greeting
  | prediction => handle_prediction_request user_message
  | training => handle_training_request user_message
  | analysis => handle_analysis_request user_message
  | general => handle_general_request user_message
  end.

(** A handler answers: in every state it returns a reply, and the history
    is the one it found with the reply appended as the assistant's. *)
Definition answers (m : M (ChatbotEngine E) string) : Prop :=
  forall (bot : ChatbotEngine E) (w : Env), exists (reply : string) eng' w',
    m bot w =
      (Ok reply,
       {| ml_engine := eng';
          conversation_history := appended (conversation_history bot) "assistant" reply |},
       w').

End Dispatch.

(** A computation that leaves the object as it found it. *)
Definition reads_only {S A} (m : M S A) : Prop :=
  forall s w, snd (fst (m s w)) = s.

(** The call returns; the object it leaves. *)
Definition returns {S A} (m : M S A) (s : S) (w : Env) : Prop :=
  exists a, fst (fst (m s w)) = Ok a.

Definition state_after {S A} (m : M S A) (s : S) (w : Env) : S := snd (fst (m s w)).

(** The four entries [train_model] writes to [model_data]. *)
Definition trained_keys : list string :=
  ["mean_value"; "trend_slope"; "seasonal_amplitude"; "noise_level"].

(** An environment, engines and chatbots for running the code on inputs. *)
Definition quiet_env : Env :=
  {| entropy := fun _ => 0%N; drawn := 0; clock := fun _ => 0; ticks := 0;
     stdout := []; entered := [] |}.

Definition one_day : MLEngine.datum :=
  {| MLEngine.day := 0; MLEngine.value := 100; MLEngine.day_of_week := 0;
     MLEngine.month := 1; MLEngine.is_weekend := 0 |}.

Definition fresh_chatbot : ChatbotEngine MLEngine.t :=
  ChatbotEngine_init (MLEngine.init [one_day]).

(** A chatbot whose engine has no data: its training divides by zero. *)
Definition chatbot_without_data : ChatbotEngine MLEngine.t :=
  ChatbotEngine_init (MLEngine.init []).

(** A collaborator that returns the training record of the scenario. *)
Definition scenario_collaborator : Collaborator unit :=
  {| predict_next_values := fun _ => raise (Exception "RuntimeError" "not scripted");
     train_model :=
       ret {| Training.model_name := "X"; Training.score := 0.918;
              Training.mae := 10; Training.training_time := 12.4;
              Training.improvement := 0.03 |};
     analyze_data := raise (Exception "RuntimeError" "not scripted") |}.

(** Fifty-one numbered messages of the user. *)
Definition numbered_messages : list (string * pyval) :=
  map (fun i => ("user", PInt (Z.of_nat i))) (seq 0 51).
(** ** Further definitions the statements use *)

(** The first category, in the order prediction, training, analysis,
    greeting, one of whose keywords occurs in a text; [general] when none
    does. *)
Definition first_category (s : string) : Intent :=
  if PyStr.any_in (keywords_of prediction) s then prediction
  else if PyStr.any_in (keywords_of training) s then training
  else if PyStr.any_in (keywords_of analysis) s then analysis
  else if PyStr.any_in (keywords_of greeting) s then greeting
  else general.

(** The lookup of the instant responses without its exact tier: the first
    key that occurs in the trimmed lowercased input, else the quick
    patterns. *)
Definition scan_lookup (message : string) : option string :=
  let msg_lower := PyStr.strip (PyStr.lower message) in
  match first_key_in msg_lower instant_cache with
  | Some (_, reply) => Some reply
  | None =>
      if PyStr.any_in quick_patterns msg_lower then Some lightning_reply else None
  end.

(** Whether one of the sub-topics of the general handler occurs in a text. *)
Definition subtopic (msg : string) : bool :=
  let user_lower := PyStr.lower msg in
  PyStr.any_in ["how"; "work"; "explain"; "methodology"] user_lower
  || PyStr.any_in ["help"; "assistance"; "commands"] user_lower
  || PyStr.any_in ["data"; "dataset"; "information"] user_lower.

(** The reply of the general handler to a text, given the template it
    picks when no sub-topic occurs. *)
Definition general_reply (msg picked : string) : string :=
  let user_lower := PyStr.lower msg in
  if PyStr.any_in ["how"; "work"; "explain"; "methodology"] user_lower then how_it_works
  else if PyStr.any_in ["help"; "assistance"; "commands"] user_lower then help_commands
  else if PyStr.any_in ["data"; "dataset"; "information"] user_lower then data_sources
  else picked +:+ general_suffix msg.

(** A float that is zero or greater than zero. *)
Definition not_negative (x : float) : Prop := x = 0%float \/ PrimFloat.ltb 0 x = true.

(** The readings of the clock are instants of the calendar, and so are the
    instants [n_days] days after them. *)
Definition within_calendar (n_days : Z) (w : Env) : Prop :=
  forall k, 0 <= clock w k
            /\ clock w k + n_days * MLEngine.microseconds_per_day <= MLEngine.datetime_max.

(** The globals of the endpoints at start, the engines with a day of data. *)
Definition fresh_globals : api.globals :=
  {| api.chatbot := fresh_chatbot; api.ml_engine := MLEngine.init [one_day] |}.

(** ** Definitions for the statements on any tables *)

(** A lowercase letter of ASCII; a text made of such letters; a text
    without any. *)
Definition is_letter (c : ascii) : bool :=
  let n := nat_of_ascii c in ((97 <=? n) && (n <=? 122))%nat.

Definition lettered (s : string) : bool :=
  forallb is_letter (list_ascii_of_string s).

Definition letterless (s : string) : bool :=
  forallb (fun c => negb (is_letter c)) (list_ascii_of_string s).

(** What the statements need of [str.strip]: the text it returns is the
    text it takes without a beginning and an end, and no lowercase letter
    of ASCII is in what it removes.  It removes white space, which in UTF-8
    is made of the white space of ASCII and of bytes above 127. *)
Definition trims (strip : string -> string) : Prop :=
  forall s, exists before after,
    s = before +:+ strip s +:+ after
    /\ letterless before = true /\ letterless after = true.

(** A case mapping that knows, besides the letters of ASCII, two
    characters of the Unicode tables: the capital I with a dot above,
    U+0130, which [str.lower] turns into an i and a combining dot, and the
    Kelvin sign, U+212A, which it turns into a k.  The bytes still to skip
    are those of the character just replaced. *)
Fixpoint sample_lower_from (skip : nat) (s : string) : string :=
  match s with
  | EmptyString => EmptyString
  | String c s' =>
      match skip with
      | S k => sample_lower_from k s'
      | O =>
          if PyStr.startswith "İ" s then "i̇" +:+ sample_lower_from 1 s'
          else if PyStr.startswith "K" s then "k" +:+ sample_lower_from 2 s'
          else String (PyStr.lower_char c) (sample_lower_from 0 s')
      end
  end.

Definition sample_lower (s : string) : string := sample_lower_from 0 s.

Module AnyTextDefs.

Section Lookups.

Variables (lower strip : string -> string).

(** The lookup of the instant responses as the specification words it, for
    the parameters [lower] and [strip]. *)
Definition two_tier_lookup (message : string) : option string :=
  let lowered := lower message in
  match dict_get (strip lowered) instant_cache with
  | Some reply => Some reply
  | None =>
      match first_key_in lowered instant_cache with
      | Some (_, reply) => Some reply
      | None => None
      end
  end.

(** The same with the tier of the quick patterns after these two. *)
Definition three_tier_lookup (message : string) : option string :=
  match two_tier_lookup message with
  | Some reply => Some reply
  | None =>
      if PyStr.any_in quick_patterns (lower message) then Some lightning_reply
      else None
  end.

(** The lookup without its exact tier: the first key that occurs in the
    trimmed lowercased input, else the quick patterns. *)
Definition scan_lookup (message : string) : option string :=
  let msg_lower := strip (lower message) in
  match first_key_in msg_lower instant_cache with
  | Some (_, reply) => Some reply
  | None =>
      if PyStr.any_in quick_patterns msg_lower then Some lightning_reply else None
  end.

(** The intent the classifier finds in a text. *)
Definition classified (msg : string) : IntentResult :=
  match first_key_in (lower msg) ml_keywords with
  | Some (_, intent) => {| intent := intent; confidence := 0.8 |}
  | None => {| intent := general; confidence := 0.9 |}
  end.

(** Whether one of the sub-topics of the general handler occurs in a text,
    and the reply of the handler, given the template it picks when none
    does. *)
Definition subtopic (msg : string) : bool :=
  let user_lower := lower msg in
  PyStr.any_in ["how"; "work"; "explain"; "methodology"] user_lower
  || PyStr.any_in ["help"; "assistance"; "commands"] user_lower
  || PyStr.any_in ["data"; "dataset"; "information"] user_lower.

Definition general_reply (msg picked : string) : string :=
  let user_lower := lower msg in
  if PyStr.any_in ["how"; "work"; "explain"; "methodology"] user_lower then how_it_works
  else if PyStr.any_in ["help"; "assistance"; "commands"] user_lower then help_commands
  else if PyStr.any_in ["data"; "dataset"; "information"] user_lower then data_sources
  else picked +:+ general_suffix msg.

End Lookups.

Section Dispatch.

Context {E : Type} {collaborator : Collaborator E}.

Variables (lower strip : string -> string).

(** The handler [process_message] dispatches an intent to. *)
Definition handler (i : Intent) (user_message : pyval) : M (ChatbotEngine E) string :=
  match i with
  | greeting => handle_greeting
  | prediction => handle_prediction_request user_message
  | training => handle_training_request user_message
  | analysis => handle_analysis_request user_message
  | general => AnyText.handle_general_request lower user_message
  end.

(** What [process_message] does after its first statement, the append of
    the user's message: the lookup of the instant responses, and either
    the append of its reply or the delay, the classifier and a handler. *)
Definition respond (user_message : pyval) : M (ChatbotEngine E) string :=
  instant_response <- AnyText.get_instant_response lower strip user_message ;;
  if is_reply instant_response then
    let reply := default "" instant_response in
    add_message "assistant" reply ;;
    ret reply
  else
    simulate_typing_delay ;;
    intent_result <- AnyText.detect_ml_intent lower user_message ;;
    match intent intent_result with
    | greeting => handle_greeting
    | prediction => handle_prediction_request user_message
    | training => handle_training_request user_message
    | analysis => handle_analysis_request user_message
    | general => AnyText.handle_general_request lower user_message
    end.

End Dispatch.

End AnyTextDefs.

(** ** The string and float operations on examples *)

Example lower_example : PyStr.lower "Train a NEW model" = "train a new model".
Proof. reflexivity. Qed.

Example strip_example : PyStr.strip ("  hi there " +:+ PyStr.nl) = "hi there".
Proof. reflexivity. Qed.

Example contains_example :
  PyStr.contains "hi" "this" = true /\ PyStr.contains "hey" "the year" = false.
Proof. split; reflexivity. Qed.

Example format_percent_example : PyFloat.format_pct 1 0.918 = "91.8%".
Proof. vm_compute. reflexivity. Qed.

Example format_ties_to_even_example :
  PyFloat.format_f 2 0.125 = "0.12" /\ PyFloat.format_f 2 2.675 = "2.67"
  /\ PyFloat.format_f 1 9.96 = "10.0" /\ PyFloat.format_f 1 (-0.04) = "-0.0".
Proof. vm_compute. repeat split. Qed.

(** ** Facts about strings *)

Module PyStrFacts.
Import PyStr.

Lemma startswith_nil (s : string) : startswith "" s = true.
Proof. destruct s; reflexivity. Qed.

Lemma contains_nil (s : string) : contains "" s = true.
Proof. induction s as [|c s IH]; simpl; [reflexivity|]. reflexivity. Qed.

Lemma startswith_app (p s : string) : startswith p (p +:+ s) = true.
Proof.
  induction p as [|a p IH]; simpl.
  - reflexivity.
  - rewrite Ascii.eqb_refl. exact IH.
Qed.

Lemma startswith_app_r (p s t : string) :
  startswith p s = true -> startswith p (s +:+ t) = true.
Proof.
  revert s. induction p as [|a p IH]; intros s H.
  - apply startswith_nil.
  - destruct s as [|b s]; simpl in *; [discriminate|].
    destruct (Ascii.eqb a b); [apply IH; exact H|discriminate].
Qed.

Lemma contains_here (sub s : string) : startswith sub s = true -> contains sub s = true.
Proof.
  destruct s as [|c s]; simpl; intros H; [exact H|]. rewrite H. reflexivity.
Qed.

Lemma contains_app_r (sub a s : string) :
  contains sub s = true -> contains sub (a +:+ s) = true.
Proof.
  intros H. induction a as [|c a IH]; simpl; [exact H|].
  rewrite IH. apply orb_true_r.
Qed.

Lemma contains_app_l (sub s b : string) :
  contains sub s = true -> contains sub (s +:+ b) = true.
Proof.
  induction s as [|c s IH]; simpl; intros H.
  - apply contains_here. destruct sub; [apply startswith_nil|discriminate].
  - apply orb_true_iff in H as [H|H].
    + pose proof (startswith_app_r sub (String c s) b H) as Hx.
      change (String c s +:+ b) with (String c (s +:+ b)) in Hx.
      rewrite Hx. reflexivity.
    + rewrite (IH H). apply orb_true_r.
Qed.

Lemma startswith_rstrip (key s : string) :
  spaceless key = true -> startswith key (rstrip s) = startswith key s.
Proof.
  revert key. induction s as [|c s IH]; intros key Hk; [reflexivity|].
  destruct key as [|k key]; [rewrite !startswith_nil; reflexivity|].
  unfold spaceless in Hk. simpl in Hk. apply andb_true_iff in Hk as [Hk Hkey].
  specialize (IH key Hkey). simpl.
  destruct (rstrip s) as [|r0 r] eqn:Er.
  - destruct (isspace c) eqn:Ec; simpl.
    + destruct (Ascii.eqb_spec k c) as [->|_]; [|reflexivity].
      rewrite Ec in Hk. discriminate.
    + destruct (Ascii.eqb k c); [exact IH|reflexivity].
  - simpl. destruct (Ascii.eqb k c); [exact IH|reflexivity].
Qed.

Lemma contains_rstrip (key s : string) :
  spaceless key = true -> contains key (rstrip s) = contains key s.
Proof.
  intros Hk. induction s as [|c s IH]; [reflexivity|].
  pose proof (startswith_rstrip key (String c s) Hk) as Hs.
  simpl contains at 2. rewrite <- Hs, <- IH. simpl.
  destruct (rstrip s) as [|r0 r] eqn:Er.
  - destruct (isspace c); simpl.
    + destruct (startswith key ""); reflexivity.
    + reflexivity.
  - reflexivity.
Qed.

Lemma contains_lstrip (key s : string) :
  spaceless key = true -> contains key (lstrip s) = contains key s.
Proof.
  intros Hk. destruct key as [|k key]; [rewrite !contains_nil; reflexivity|].
  unfold spaceless in Hk. simpl in Hk. apply andb_true_iff in Hk as [Hk _].
  induction s as [|c s IH]; [reflexivity|].
  simpl lstrip. destruct (isspace c) eqn:Ec; [|reflexivity].
  rewrite IH. simpl.
  destruct (Ascii.eqb_spec k c) as [->|_]; [|reflexivity].
  rewrite Ec in Hk. discriminate.
Qed.

Lemma contains_strip (key s : string) :
  spaceless key = true -> contains key (strip s) = contains key s.
Proof.
  intros Hk. unfold strip. rewrite contains_rstrip, contains_lstrip by exact Hk.
  reflexivity.
Qed.

End PyStrFacts.

(** ** Facts about the bounded history *)

Lemma keep_last_lastn {A} (cap : Z) (l : list A) :
  0 < cap -> keep_last cap l = lastn (Z.to_nat cap) l.
Proof.
  intros Hcap. unfold keep_last, slice_from, lastn.
  destruct (Z.gtb_spec (Z.of_nat (length l)) cap) as [Hgt|Hle].
  - replace (- cap <? 0) with true by (symmetry; apply Z.ltb_lt; lia).
    f_equal. lia.
  - replace (length l - Z.to_nat cap)%nat with 0%nat by lia. reflexivity.
Qed.

Lemma length_lastn {A} (n : nat) (l : list A) : length (lastn n l) = Nat.min n (length l).
Proof. unfold lastn. rewrite List.length_skipn. lia. Qed.

Lemma lastn_all {A} (n : nat) (l : list A) : (length l <= n)%nat -> lastn n l = l.
Proof. intros H. unfold lastn. replace (length l - n)%nat with 0%nat by lia. reflexivity. Qed.

Lemma lastn_lastn {A} (n k : nat) (l : list A) :
  (n <= k)%nat -> lastn n (lastn k l) = lastn n l.
Proof.
  intros H. unfold lastn. rewrite List.length_skipn, List.skipn_skipn. f_equal. lia.
Qed.

(** Appending to the last [n] and keeping the last [n] is keeping the last
    [n] of the whole: what is dropped is dropped from the front. *)
Lemma lastn_app_lastn {A} (n : nat) (l more : list A) :
  lastn n (lastn n l ++ more) = lastn n (l ++ more).
Proof.
  unfold lastn at 2.
  replace (skipn (length l - n) l ++ more) with (skipn (length l - n) (l ++ more)).
  - unfold lastn. rewrite List.length_skipn, List.skipn_skipn, !List.length_app.
    f_equal. lia.
  - rewrite List.skipn_app. replace (length l - n - length l)%nat with 0%nat by lia.
    reflexivity.
Qed.

Lemma lastn_app_exact {A} (l tail : list A) : lastn (length tail) (l ++ tail) = tail.
Proof.
  unfold lastn. rewrite List.length_app.
  replace (length l + length tail - length tail)%nat with (length l) by lia.
  rewrite List.skipn_app, List.skipn_all, Nat.sub_diag. reflexivity.
Qed.

Lemma last_lastn_snoc {A} (n : nat) (l : list A) (x : A) :
  (1 <= n)%nat -> last (lastn n (l ++ [x])) = Some x.
Proof.
  intros H. unfold lastn. rewrite List.length_app. simpl.
  rewrite List.skipn_app.
  replace (length l + 1 - n - length l)%nat with 0%nat by lia.
  simpl. apply last_snoc.
Qed.

Ltac run :=
  cbv beta iota delta
    [bind ret raise try_except get modify zoom enter next_draw uniform
     randbelow choice sleep print now on_ml_engine add_message py_lower
     simulate_typing_delay get_conversation_history clear_conversation].

Section CoreFacts.

Context {E : Type} {collaborator : Collaborator E}.

Implicit Types (bot : ChatbotEngine E) (w : Env) (msg : string).

Lemma spaceless_keys :
  forallb (fun item => spaceless (fst item)) instant_cache = true
  /\ forallb spaceless quick_patterns = true.
Proof. split; reflexivity. Qed.

Lemma first_key_in_strip {V} (d : list (string * V)) (s : string) :
  forallb (fun item => spaceless (fst item)) d = true ->
  first_key_in (PyStr.strip s) d = first_key_in s d.
Proof.
  unfold first_key_in. induction d as [|[k v] d IH]; simpl; intros H; [reflexivity|].
  apply andb_true_iff in H as [Hk Hd].
  rewrite (PyStrFacts.contains_strip k s Hk), (IH Hd). reflexivity.
Qed.

Lemma any_in_strip (words : list string) (s : string) :
  forallb spaceless words = true ->
  PyStr.any_in words (PyStr.strip s) = PyStr.any_in words s.
Proof.
  unfold PyStr.any_in. induction words as [|k d IH]; simpl; intros H; [reflexivity|].
  apply andb_true_iff in H as [Hk Hd].
  rewrite (PyStrFacts.contains_strip k s Hk), (IH Hd). reflexivity.
Qed.

(** What [get_instant_response] computes on a text, and that it leaves the
    chatbot and the environment as they were. *)
Lemma get_instant_response_run msg bot w :
  get_instant_response msg bot w = (Ok (three_tier_lookup msg), bot, w).
Proof.
  unfold get_instant_response, three_tier_lookup, two_tier_lookup. run.
  destruct spaceless_keys as [Hc Hq].
  rewrite (first_key_in_strip instant_cache _ Hc), (any_in_strip _ _ Hq).
  destruct (dict_get _ instant_cache) as [reply|]; [reflexivity|].
  destruct (first_key_in _ instant_cache) as [[key reply]|]; [reflexivity|].
  destruct (PyStr.any_in quick_patterns _); reflexivity.
Qed.

Lemma instant_cache_replies (key reply : string) :
  dict_get key instant_cache = Some reply -> String.eqb reply "" = false.
Proof.
  unfold instant_cache, dict_get.
  repeat (destruct (String.eqb key _); [intros [= <-]; reflexivity|]).
  discriminate.
Qed.

Lemma first_key_in_replies (s key reply : string) :
  first_key_in s instant_cache = Some (key, reply) -> String.eqb reply "" = false.
Proof.
  unfold instant_cache, first_key_in, find.
  repeat (destruct (PyStr.contains _ s); [intros [= <- <-]; reflexivity|]).
  discriminate.
Qed.

(** A reply of the lookup is never the empty text, so [if instant_response]
    tests exactly that there is one. *)
Lemma is_reply_lookup msg :
  is_reply (three_tier_lookup msg) = match three_tier_lookup msg with Some _ => true | None => false end.
Proof.
  unfold three_tier_lookup, two_tier_lookup.
  destruct (dict_get _ instant_cache) as [reply|] eqn:Ha.
  - simpl. rewrite (instant_cache_replies _ _ Ha). reflexivity.
  - destruct (first_key_in _ instant_cache) as [[key reply]|] eqn:Hb.
    + simpl. rewrite (first_key_in_replies _ _ _ Hb). reflexivity.
    + destruct (PyStr.any_in quick_patterns _); reflexivity.
Qed.

(** The instant path of [process_message]. *)
Lemma process_message_instant msg reply bot w :
  three_tier_lookup msg = Some reply ->
  process_message msg bot w =
    (Ok reply,
     {| ml_engine := ml_engine bot;
        conversation_history :=
          appended (appended (conversation_history bot) "user" msg) "assistant" reply |},
     w).
Proof.
  intros H. unfold process_message.
  unfold bind at 1. unfold add_message at 1, modify. 
  unfold bind at 1. rewrite get_instant_response_run.
  rewrite is_reply_lookup, H. reflexivity.
Qed.

(** What the classifier computes on a text; it only logs that it ran. *)
Lemma detect_ml_intent_run msg bot w :
  detect_ml_intent msg bot w = (Ok (classified msg), bot, logged "detect_ml_intent" w).
Proof.
  unfold detect_ml_intent, classified. run.
  destruct (first_key_in _ ml_keywords) as [[key i]|]; reflexivity.
Qed.

(** The path of [process_message] past the instant responses: the delay
    consumes a draw, the classifier runs, the handler of the intent takes
    over with the user's message in the history. *)
Lemma process_message_classified msg bot w :
  three_tier_lookup msg = None ->
  process_message msg bot w =
    handler (intent (classified msg)) msg
      {| ml_engine := ml_engine bot;
         conversation_history := appended (conversation_history bot) "user" msg |}
      (logged "detect_ml_intent" (drew w)).
Proof.
  intros H. unfold process_message.
  unfold bind at 1. unfold add_message at 1, modify.
  unfold bind at 1. rewrite get_instant_response_run.
  rewrite is_reply_lookup, H.
  unfold bind at 1. unfold simulate_typing_delay. run.
  rewrite detect_ml_intent_run. unfold handler.
  destruct (intent (classified msg)); reflexivity.
Qed.

Lemma choice_answers {S A} (d : A) (l : list A) (s : S) w :
  exists x, In x (d :: l) /\ choice (d :: l) s w = (Ok x, s, drew w).
Proof.
  run. eexists. split; [|reflexivity].
  apply nth_In. apply Nat.mod_upper_bound. discriminate.
Qed.

(** Choosing among the templates of a key never fails and costs a draw. *)
Lemma choice_template {S} (key : Intent) (s : S) w :
  exists x, In x (simulation_responses key)
            /\ choice (simulation_responses key) s w = (Ok x, s, drew w).
Proof. destruct key; apply choice_answers. Qed.

Lemma handle_greeting_answers : answers (E:=E) handle_greeting.
Proof.
  intros bot w. unfold handle_greeting.
  unfold bind at 1. unfold enter at 1. unfold bind at 1.
  destruct (choice_template greeting bot (logged "handle_greeting" w)) as (x & _ & ->).
  run. eauto.
Qed.

(** The prediction handler: an intro is chosen, the collaborator is called,
    and its record or its exception becomes the reply. *)
Lemma handle_prediction_request_run (m : pyval) bot w :
  exists intro, In intro (simulation_responses prediction) /\
    handle_prediction_request m bot w =
      match predict_next_values 7 (ml_engine bot)
              (drew (logged "handle_prediction_request" w)) with
      | (Ok r, eng', w') =>
          (Ok (prediction_response intro r),
           {| ml_engine := eng';
              conversation_history :=
                appended (conversation_history bot) "assistant"
                         (prediction_response intro r) |}, w')
      | (Raise e, eng', w') =>
          (Ok ("❌ Error during prediction: " +:+ str_exn e),
           {| ml_engine := eng';
              conversation_history :=
                appended (conversation_history bot) "assistant"
                         ("❌ Error during prediction: " +:+ str_exn e) |}, w')
      end.
Proof.
  unfold handle_prediction_request.
  unfold bind at 1. unfold enter at 1. unfold try_except. unfold bind at 1.
  destruct (choice_template prediction bot (logged "handle_prediction_request" w))
    as (x & Hin & ->).
  exists x. split; [exact Hin|]. run.
  destruct (predict_next_values 7 _ _) as [[[r|e] eng'] w']; reflexivity.
Qed.

Lemma handle_training_request_run (m : pyval) bot w :
  exists intro, In intro (simulation_responses training) /\
    handle_training_request m bot w =
      match train_model (ml_engine bot)
              (drew (logged "handle_training_request" w)) with
      | (Ok r, eng', w') =>
          (Ok (training_response intro r),
           {| ml_engine := eng';
              conversation_history :=
                appended (conversation_history bot) "assistant"
                         (training_response intro r) |}, w')
      | (Raise e, eng', w') =>
          (Ok ("❌ Error during training: " +:+ str_exn e),
           {| ml_engine := eng';
              conversation_history :=
                appended (conversation_history bot) "assistant"
                         ("❌ Error during training: " +:+ str_exn e) |}, w')
      end.
Proof.
  unfold handle_training_request.
  unfold bind at 1. unfold enter at 1. unfold try_except. unfold bind at 1.
  destruct (choice_template training bot (logged "handle_training_request" w))
    as (x & Hin & ->).
  exists x. split; [exact Hin|]. run.
  destruct (train_model _ _) as [[[r|e] eng'] w']; reflexivity.
Qed.

Lemma handle_analysis_request_run (m : pyval) bot w :
  exists intro, In intro (simulation_responses analysis) /\
    handle_analysis_request m bot w =
      match analyze_data (ml_engine bot)
              (drew (logged "handle_analysis_request" w)) with
      | (Ok r, eng', w') =>
          (Ok (analysis_response intro r),
           {| ml_engine := eng';
              conversation_history :=
                appended (conversation_history bot) "assistant"
                         (analysis_response intro r) |}, w')
      | (Raise e, eng', w') =>
          (Ok ("❌ Error during analysis: " +:+ str_exn e),
           {| ml_engine := eng';
              conversation_history :=
                appended (conversation_history bot) "assistant"
                         ("❌ Error during analysis: " +:+ str_exn e) |}, w')
      end.
Proof.
  unfold handle_analysis_request.
  unfold bind at 1. unfold enter at 1. unfold try_except. unfold bind at 1.
  destruct (choice_template analysis bot (logged "handle_analysis_request" w))
    as (x & Hin & ->).
  exists x. split; [exact Hin|]. run.
  destruct (analyze_data _ _) as [[[r|e] eng'] w']; reflexivity.
Qed.

Lemma handle_prediction_request_answers (m : pyval) : answers (E:=E) (handle_prediction_request m).
Proof.
  intros bot w. destruct (handle_prediction_request_run m bot w) as (intro & _ & ->).
  destruct (predict_next_values 7 _ _) as [[[r|e] eng'] w']; eauto.
Qed.

Lemma handle_training_request_answers (m : pyval) : answers (E:=E) (handle_training_request m).
Proof.
  intros bot w. destruct (handle_training_request_run m bot w) as (intro & _ & ->).
  destruct (train_model _ _) as [[[r|e] eng'] w']; eauto.
Qed.

Lemma handle_analysis_request_answers (m : pyval) : answers (E:=E) (handle_analysis_request m).
Proof.
  intros bot w. destruct (handle_analysis_request_run m bot w) as (intro & _ & ->).
  destruct (analyze_data _ _) as [[[r|e] eng'] w']; eauto.
Qed.

Lemma handle_general_request_answers msg : answers (E:=E) (handle_general_request msg).
Proof.
  intros bot w. unfold handle_general_request.
  unfold bind at 1. unfold enter at 1. unfold bind at 1. unfold py_lower, ret at 1.
  unfold bind at 1.
  destruct (PyStr.any_in ["how"; "work"; "explain"; "methodology"] _);
    [run; eauto|].
  destruct (PyStr.any_in ["help"; "assistance"; "commands"] _);
    [run; eauto|].
  destruct (PyStr.any_in ["data"; "dataset"; "information"] _);
    [run; eauto|].
  unfold bind at 1.
  destruct (choice_template general bot (logged "handle_general_request" w))
    as (x & _ & ->).
  run. eauto.
Qed.

Lemma handler_answers (i : Intent) msg : answers (E:=E) (handler i msg).
Proof.
  destruct i; simpl.
  - apply handle_greeting_answers.
  - apply handle_prediction_request_answers.
  - apply handle_training_request_answers.
  - apply handle_analysis_request_answers.
  - apply handle_general_request_answers.
Qed.

(** Every call of [process_message] on a text returns a reply, having
    appended the user's message and then the reply. *)
Lemma process_message_answers msg bot w :
  exists (reply : string) eng' w',
    process_message msg bot w =
      (Ok reply,
       {| ml_engine := eng';
          conversation_history :=
            appended (appended (conversation_history bot) "user" msg) "assistant" reply |},
       w').
Proof.
  destruct (three_tier_lookup msg) as [reply|] eqn:Hl.
  - rewrite (process_message_instant msg reply bot w Hl). eauto.
  - rewrite (process_message_classified msg bot w Hl).
    apply (handler_answers (intent (classified msg)) msg).
Qed.

End CoreFacts.



Section CoreProperties.

Context {E : Type} {collaborator : Collaborator E}.

Implicit Types (bot : ChatbotEngine E) (w : Env) (msg : string).

Lemma capacity_value : capacity = 50%nat.
Proof. reflexivity. Qed.

Lemma appended_lastn (h : list Message) (role : string) (content : pyval) :
  appended h role content = lastn capacity (h ++ [{| role := role; content := content |}]).
Proof. unfold appended. apply keep_last_lastn. reflexivity. Qed.

Lemma last_appended (h : list Message) (role : string) (content : pyval) :
  last (appended h role content) = Some {| role := role; content := content |}.
Proof. rewrite appended_lastn. apply last_lastn_snoc. rewrite capacity_value. lia. Qed.

Lemma length_appended (h : list Message) (role : string) (content : pyval) :
  (length (appended h role content) <= capacity)%nat.
Proof. rewrite appended_lastn, length_lastn. lia. Qed.

Lemma append_all_from (ops : list (string * pyval)) bot w :
  (length (conversation_history bot) <= capacity)%nat ->
  append_all ops bot w =
    (Ok tt,
     {| ml_engine := ml_engine bot;
        conversation_history :=
          lastn capacity (conversation_history bot ++ map as_message ops) |},
     w).
Proof.
  revert bot. induction ops as [|[role content] ops IH]; intros bot Hlen.
  - simpl. unfold ret. rewrite List.app_nil_r, lastn_all by exact Hlen.
    destruct bot; reflexivity.
  - simpl. unfold bind at 1. unfold add_message, modify.
    fold (appended (conversation_history bot) role content).
    rewrite IH; simpl.
    + rewrite appended_lastn, lastn_app_lastn, <- List.app_assoc. reflexivity.
    + apply length_appended.
Qed.



(** C3.  After any append the history holds at most
    [MAX_CONVERSATION_LENGTH] messages; appended to an empty session, a
    sequence of messages leaves its last [MAX_CONVERSATION_LENGTH] ones in
    their order; one more than the capacity leaves all but the first. *)
Theorem history_is_bounded_and_fifo :
  (forall bot role content w, exists bot',
      add_message role content bot w = (Ok tt, bot', w)
      /\ Z.of_nat (length (conversation_history bot')) <= config.MAX_CONVERSATION_LENGTH)
  /\ (forall (engine : E) (ops : list (string * pyval)) w, exists bot',
      append_all ops (ChatbotEngine_init engine) w = (Ok tt, bot', w)
      /\ Z.of_nat (length (conversation_history bot')) <= config.MAX_CONVERSATION_LENGTH
      /\ conversation_history bot' = skipn (length ops - capacity) (map as_message ops)
      /\ (length ops = S capacity ->
          length (conversation_history bot') = capacity
          /\ conversation_history bot' = tl (map as_message ops))).
Proof.
  split.
  - intros bot role content w. eexists. split; [reflexivity|]. simpl.
    fold (appended (conversation_history bot) role content).
    pose proof (length_appended (conversation_history bot) role content) as H.
    unfold capacity, config.MAX_CONVERSATION_LENGTH in *. lia.
  - intros engine ops w. eexists. split.
    + apply append_all_from. simpl. lia.
    + simpl. unfold lastn. rewrite List.length_map.
      split; [|split; [reflexivity|]].
      * rewrite List.length_skipn, List.length_map.
        unfold capacity, config.MAX_CONVERSATION_LENGTH. lia.
      * intros Hlen. rewrite Hlen.
        replace (S capacity - capacity)%nat with 1%nat by lia.
        split.
        -- rewrite List.length_skipn, List.length_map, Hlen. lia.
        -- destruct (map as_message ops); reflexivity.
Qed.

(** C4.  If the collaborator raises when [process_message] calls
    [predict_next_values], the call on "predict next week" does not raise:
    it returns the error text, which carries the error marker, and that
    text is the last entry of the history. *)
Theorem prediction_failure_is_reported bot w (e : exn) (eng' : E) (w' : Env) :
  predict_next_values 7 (ml_engine bot)
    (env_at_collaborator_call "handle_prediction_request" w) = (Raise e, eng', w') ->
  exists bot' history,
    process_message "predict next week" bot w
      = (Ok ("❌ Error during prediction: " +:+ str_exn e), bot', w')
    /\ PyStr.contains "❌" ("❌ Error during prediction: " +:+ str_exn e) = true
    /\ get_conversation_history bot' w' = (Ok history, bot', w')
    /\ last history
       = Some {| role := "assistant";
                 content := PStr ("❌ Error during prediction: " +:+ str_exn e) |}.
Proof.
  intros Hraise.
  rewrite (process_message_classified "predict next week" bot w) by reflexivity.
  change (intent (classified "predict next week")) with prediction. simpl handler.
  destruct (handle_prediction_request_run "predict next week"
              {| ml_engine := ml_engine bot;
                 conversation_history :=
                   appended (conversation_history bot) "user" "predict next week" |}
              (logged "detect_ml_intent" (drew w))) as (intro & _ & ->).
  simpl ml_engine. unfold env_at_collaborator_call in Hraise. rewrite Hraise.
  eexists. eexists. split; [reflexivity|]. split; [|split; [reflexivity|]].
  - apply (PyStrFacts.contains_app_l "❌" "❌" _). reflexivity.
  - apply last_appended.
Qed.

(** C8.  After [clear_conversation], [get_conversation_history] returns the
    empty list, whatever the session held. *)
Theorem reset_then_history_is_empty bot w :
  (clear_conversation ;; get_conversation_history) bot w
    = (Ok [], {| ml_engine := ml_engine bot; conversation_history := [] |}, w).
Proof. reflexivity. Qed.

(** C6, as amended.  On "hello" [process_message] returns the canned reply
    of the instant cache for that key; on "Train a new model", when the
    collaborator's [train_model] returns a record with score 0.918 and
    elapsed time 12.4 seconds, the reply contains "91.8%" and "12.4". *)
Theorem hello_and_training_scenario :
  (forall bot w, exists bot',
      process_message "hello" bot w
        = (Ok "Hello! 👋 I'm your AI-powered predictive assistant! Ready for instant predictions?",
           bot', w))
  /\ (forall bot w (r : Training.t) (eng' : E) (w' : Env),
      train_model (ml_engine bot)
        (env_at_collaborator_call "handle_training_request" w) = (Ok r, eng', w') ->
      Training.score r = 0.918%float ->
      Training.training_time r = 12.4%float ->
      exists (reply : string) bot',
        process_message "Train a new model" bot w = (Ok reply, bot', w')
        /\ PyStr.contains "91.8%" reply = true
        /\ PyStr.contains "12.4" reply = true).
Proof.
  split.
  - intros bot w. eexists.
    apply (process_message_instant "hello"). reflexivity.
  - intros bot w r eng' w' Hcall Hscore Htime.
    rewrite (process_message_classified "Train a new model" bot w) by reflexivity.
    change (intent (classified "Train a new model")) with training. simpl handler.
    destruct (handle_training_request_run "Train a new model"
                {| ml_engine := ml_engine bot;
                   conversation_history :=
                     appended (conversation_history bot) "user" "Train a new model" |}
                (logged "detect_ml_intent" (drew w))) as (intro & _ & ->).
    simpl ml_engine. unfold env_at_collaborator_call in Hcall. rewrite Hcall.
    eexists. eexists. split; [reflexivity|].
    unfold training_response. rewrite Hscore, Htime.
    replace (PyFloat.format_pct 1 0.918) with "91.8%" by (vm_compute; reflexivity).
    replace (PyFloat.format_f 1 12.4) with "12.4" by (vm_compute; reflexivity).
    split.
    + do 4 apply PyStrFacts.contains_app_r.
      apply PyStrFacts.contains_here, PyStrFacts.startswith_app.
    + do 6 apply PyStrFacts.contains_app_r.
      apply PyStrFacts.contains_here, PyStrFacts.startswith_app.
Qed.

End CoreProperties.

(** ** Facts about the simulated engine *)

Module MLEngineFacts.
Import MLEngine.

Ltac run_ml :=
  cbv beta iota delta
    [bind ret raise get modify uniform next_draw now print sleep
     div_len getitem last_item first_item].

Lemma reads_only_ret {S A} (a : A) : reads_only (ret (S:=S) a).
Proof. intros s w. reflexivity. Qed.

Lemma reads_only_raise {S A} (e : exn) : reads_only (raise (S:=S) (A:=A) e).
Proof. intros s w. reflexivity. Qed.

Lemma reads_only_bind {S A B} (m : M S A) (k : A -> M S B) :
  reads_only m -> (forall a, reads_only (k a)) -> reads_only (bind m k).
Proof.
  intros Hm Hk s w. unfold bind. specialize (Hm s w).
  destruct (m s w) as [[[a|e] s1] w1]; simpl in Hm; subst s1.
  - apply Hk.
  - reflexivity.
Qed.

Lemma reads_only_uniform {S} (a b : float) : reads_only (uniform (S:=S) a b).
Proof. intros s w. reflexivity. Qed.

Lemma reads_only_now {S} : reads_only (now (S:=S)).
Proof. intros s w. reflexivity. Qed.

Lemma reads_only_print {S} (line : string) : reads_only (print (S:=S) line).
Proof. intros s w. reflexivity. Qed.

Lemma reads_only_get {S} : reads_only (get (S:=S)).
Proof. intros s w. reflexivity. Qed.

Lemma reads_only_div_len {S} (total : float) (len : nat) : reads_only (div_len (S:=S) total len).
Proof. intros s w. destruct len; reflexivity. Qed.

Lemma reads_only_getitem {S} (d : gmap string float) (key : string) :
  reads_only (getitem (S:=S) d key).
Proof. intros s w. unfold getitem. destruct (d !! key); reflexivity. Qed.

Lemma reads_only_last_item {S A} (l : list A) : reads_only (last_item (S:=S) l).
Proof. intros s w. unfold last_item. destruct (last l); reflexivity. Qed.

Lemma reads_only_plus_days {S} (when i : Z) : reads_only (plus_days (S:=S) when i).
Proof. intros s w. unfold plus_days. destruct (_ && _); reflexivity. Qed.

Lemma reads_only_for_each {S A B} (f : A -> M S B) (l : list A) :
  (forall i, reads_only (f i)) -> reads_only (for_each f l).
Proof.
  intros Hf. induction l as [|i l IH]; simpl.
  - apply reads_only_ret.
  - apply reads_only_bind; [apply Hf|]. intros x.
    apply reads_only_bind; [apply IH|]. intros xs. apply reads_only_ret.
Qed.

Ltac reads_only :=
  repeat first
    [ apply reads_only_ret | apply reads_only_raise | apply reads_only_uniform
    | apply reads_only_now | apply reads_only_print | apply reads_only_get
    | apply reads_only_div_len | apply reads_only_getitem
    | apply reads_only_last_item | apply reads_only_plus_days
    | apply reads_only_for_each; intros ?
    | apply reads_only_bind; [|intros ?] ].

(** What [train_model] does to the engine: when it returns, the engine is
    marked trained and [model_data] holds the four entries; when it raises,
    the engine is as it was. *)
Lemma train_model_state (self : t) (w : Env) :
  match train_model self w with
  | (Ok _, self', _) =>
      is_trained self' = true
      /\ Forall (fun key => is_Some (model_data self' !! key)) trained_keys
      /\ historical_data self' = historical_data self
  | (Raise _, self', _) => self' = self
  end.
Proof.
  unfold train_model. run_ml.
  destruct (length (historical_data self)); [reflexivity|].
  cbv beta iota delta [set_model_data set_is_trained set_last_training_time
                       is_trained model_data historical_data].
  split; [reflexivity|]. split; [|reflexivity].
  unfold trained_keys. repeat constructor; simplify_map_eq; eauto.
Qed.

(** The engine after [predict_next_values]: the one it found when that one
    was trained, else the one [train_model] leaves. *)
Lemma predict_next_values_state (n_days : Z) (self : t) (w : Env) :
  snd (fst (predict_next_values n_days self w))
  = if is_trained self then self else snd (fst (train_model self w)).
Proof.
  unfold predict_next_values. unfold bind at 1. unfold get at 1.
  destruct (is_trained self); simpl negb; cbv iota.
  - unfold bind at 1. unfold ret at 1.
    match goal with |- snd (fst (?m self w)) = self => assert (H : reads_only m) end.
    { reads_only. }
    apply H.
  - unfold bind at 1. unfold bind at 1.
    destruct (train_model self w) as [[[tr|e] s1] w1]; [|reflexivity].
    unfold ret at 1.
    match goal with |- snd (fst (?m s1 w1)) = _ => assert (H : reads_only m) end.
    { reads_only. }
    apply H.
Qed.

(** A prediction over an engine without a slope does not return. *)
Lemma predict_next_values_needs_slope (n_days : Z) (self : t) (w : Env) :
  is_trained self = true ->
  model_data self !! "trend_slope" = None ->
  exists e w', predict_next_values n_days self w = (Raise e, self, w').
Proof.
  intros Ht Hnone. unfold predict_next_values. unfold bind at 1. unfold get at 1.
  rewrite Ht. simpl negb. cbv iota. run_ml.
  destruct (last (historical_data self)) as [d|]; [|eauto].
  destruct (range 0 n_days) as [|i l]; simpl for_each.
  - run_ml. simpl. eauto.
  - run_ml. rewrite Hnone. eauto.
Qed.

Lemma predict_next_values_train_raises (n_days : Z) (self : t) (w : Env) e s1 w1 :
  is_trained self = false ->
  train_model self w = (Raise e, s1, w1) ->
  predict_next_values n_days self w = (Raise e, s1, w1).
Proof.
  intros Ht Hr. unfold predict_next_values. unfold bind at 1. unfold get at 1.
  rewrite Ht. simpl negb. cbv iota. unfold bind at 1 2. rewrite Hr. reflexivity.
Qed.

Lemma bind_returns {S A B} (m : M S A) (k : A -> M S B) s w a s1 w1 :
  m s w = (Ok a, s1, w1) -> returns (k a) s1 w1 -> returns (bind m k) s w.
Proof. intros Hm [b Hb]. exists b. unfold bind. rewrite Hm. exact Hb. Qed.

Lemma max0_not_negative (x : float) : not_negative (PyFloat.max0 x).
Proof.
  unfold not_negative, PyFloat.max0, PyFloat.gt.
  destruct (PrimFloat.ltb 0 x) eqn:H; [right; exact H|left; reflexivity].
Qed.

(** A comprehension returns when each of its calls does, in the
    environments the calls before it leave. *)
Lemma for_each_returns {S A B} (I : Env -> Prop) (P : B -> Prop)
    (f : A -> M S B) (l : list A) (s : S) w :
  I w ->
  (forall i w0, In i l -> I w0 -> exists x w1, f i s w0 = (Ok x, s, w1) /\ I w1 /\ P x) ->
  exists xs w',
    for_each f l s w = (Ok xs, s, w') /\ length xs = length l /\ Forall P xs /\ I w'.
Proof.
  revert w. induction l as [|i l IH]; intros w Hw Hf; simpl.
  - exists [], w. repeat split; [constructor|exact Hw].
  - destruct (Hf i w (or_introl eq_refl) Hw) as (x & w1 & Hx & Hw1 & HP).
    destruct (IH w1 Hw1) as (xs & w2 & Hxs & Hlen & Hall & Hw2).
    { intros j w0 Hj. apply Hf. right. exact Hj. }
    exists (x :: xs), w2. unfold bind. rewrite Hx, Hxs. split; [reflexivity|].
    split; [simpl; rewrite Hlen; reflexivity|]. split; [constructor; assumption|exact Hw2].
Qed.

Lemma length_range (a b : Z) : length (range a b) = Z.to_nat (b - a).
Proof. unfold range. rewrite List.length_map, List.length_seq. reflexivity. Qed.

Lemma in_range (a b i : Z) : In i (range a b) -> a <= i < b.
Proof.
  unfold range. intros H. apply in_map_iff in H as (k & <- & Hk).
  apply in_seq in Hk. lia.
Qed.

(** Within the calendar the sum of an instant and a number of days is
    returned. *)
Lemma plus_days_returns {S} (when i : Z) (s : S) w :
  0 <= when + i * microseconds_per_day <= datetime_max ->
  plus_days when i s w = (Ok (when + i * microseconds_per_day), s, w).
Proof.
  intros [Hlo Hhi]. unfold plus_days. cbv zeta.
  apply Z.leb_le in Hlo, Hhi. rewrite Hlo, Hhi. reflexivity.
Qed.

(** A prediction on a trained engine with a slope and data, over at least
    one day and within the calendar: it returns, and the record has one
    value and one date per day. *)
Lemma predict_trained_shape (n_days : Z) (self : t) (w : Env) (slope : float) :
  is_trained self = true ->
  model_data self !! "trend_slope" = Some slope ->
  historical_data self <> [] ->
  1 <= n_days ->
  within_calendar n_days w ->
  exists r w',
    predict_next_values n_days self w = (Ok r, self, w')
    /\ length (Prediction.predictions_detail r) = Z.to_nat n_days
    /\ length (Prediction.dates r) = Z.to_nat n_days
    /\ Forall not_negative (Prediction.predictions_detail r)
    /\ Prediction.model_name r = model_name self.
Proof.
  intros Ht Hs Hd Hn Hcal. unfold predict_next_values.
  unfold bind at 1. unfold get at 1. rewrite Ht. simpl negb. cbv iota.
  unfold bind at 1. unfold ret at 1.
  unfold bind at 1. unfold print at 1.
  unfold bind at 1. unfold get at 1.
  destruct (last (historical_data self)) as [d|] eqn:Hl;
    [|apply last_None in Hl; contradiction].
  unfold bind at 1. unfold last_item. rewrite Hl. unfold ret at 1.
  unfold bind at 1.
  match goal with |- context [for_each ?f (range 0 n_days) ?s ?w0] =>
    destruct (for_each_returns (fun w1 => clock w1 = clock w) not_negative
                f (range 0 n_days) s w0)
      as (xs & w1 & Hxs & Hlen & Hall & Hclock) end.
  { reflexivity. }
  { intros i w0 _ Hw0. unfold bind, getitem. rewrite Hs. run_ml.
    eexists. eexists. split; [reflexivity|]. split; [exact Hw0|].
    apply max0_not_negative. }
  rewrite Hxs.
  rewrite length_range in Hlen.
  destruct (length xs) as [|k] eqn:Hk; [lia|].
  cbv beta iota delta [bind ret uniform next_draw div_len].
  match goal with |- context [for_each ?f (range 1 (n_days + 1)) ?s ?w0] =>
    destruct (for_each_returns (fun w2 => clock w2 = clock w) (fun _ => True)
                f (range 1 (n_days + 1)) s w0)
      as (ds & w2 & Hds & Hdlen & _ & _) end.
  { exact Hclock. }
  { intros i w0 Hi Hw0. apply in_range in Hi.
    unfold now. cbv beta iota.
    rewrite plus_days_returns.
    - eexists. eexists. split; [reflexivity|]. split; [exact Hw0|exact I].
    - rewrite Hw0. destruct (Hcal (ticks w0)) as [Hlo Hhi].
      unfold microseconds_per_day in *. nia. }
  rewrite Hds.
  eexists. eexists. split; [reflexivity|]. simpl.
  rewrite length_range in Hdlen.
  split; [lia|]. split; [lia|]. split; [exact Hall|reflexivity].
Qed.

Lemma predict_next_values_trained_returns (n_days : Z) (self : t) (w : Env) (slope : float) :
  is_trained self = true ->
  model_data self !! "trend_slope" = Some slope ->
  historical_data self <> [] ->
  1 <= n_days ->
  within_calendar n_days w ->
  returns (predict_next_values n_days) self w.
Proof.
  intros Ht Hs Hd Hn Hcal.
  destruct (predict_trained_shape n_days self w slope Ht Hs Hd Hn Hcal) as (r & w' & Hr & _).
  exists r. rewrite Hr. reflexivity.
Qed.

Lemma train_model_returns (self : t) (w : Env) :
  historical_data self <> [] ->
  exists tr s1 w1,
    train_model self w = (Ok tr, s1, w1)
    /\ is_trained s1 = true
    /\ is_Some (model_data s1 !! "trend_slope")
    /\ historical_data s1 = historical_data self.
Proof.
  intros Hd. unfold train_model. run_ml.
  destruct (historical_data self) as [|d l] eqn:Hh; [contradiction|].
  simpl length. cbv iota.
  eexists. eexists. eexists. split; [reflexivity|].
  cbv beta iota delta [set_model_data set_is_trained set_last_training_time
                       is_trained model_data historical_data].
  split; [reflexivity|]. split; [|exact Hh].
  simplify_map_eq. eauto.
Qed.

(** A training leaves the engine's name and the clock's readings. *)
Lemma train_model_keeps (self : t) (w : Env) tr s1 w1 :
  train_model self w = (Ok tr, s1, w1) ->
  model_name s1 = model_name self /\ clock w1 = clock w.
Proof.
  unfold train_model. run_ml.
  destruct (length (historical_data self)); [discriminate|].
  intros [= _ <- <-]. split; reflexivity.
Qed.

(** On an untrained engine a prediction is a training followed by the
    prediction on the engine it leaves. *)
Lemma predict_next_values_untrained (n_days : Z) (self : t) (w : Env) tr s1 w1 :
  is_trained self = false ->
  train_model self w = (Ok tr, s1, w1) ->
  is_trained s1 = true ->
  predict_next_values n_days self w = predict_next_values n_days s1 w1.
Proof.
  intros Ht Htrain Ht1. unfold predict_next_values.
  unfold bind at 1. unfold get at 1. rewrite Ht. simpl negb. cbv iota.
  unfold bind at 1 2. rewrite Htrain. unfold ret at 1.
  symmetry. unfold bind at 1. unfold get at 1. rewrite Ht1. simpl negb. cbv iota.
  unfold bind at 1. unfold ret at 1. reflexivity.
Qed.

(** On an engine with data, untrained or trained with a slope, a
    prediction over at least one day and within the calendar returns. *)
Lemma predict_next_values_returns (n_days : Z) (self : t) (w : Env) :
  historical_data self <> [] ->
  1 <= n_days ->
  (is_trained self = true -> is_Some (model_data self !! "trend_slope")) ->
  within_calendar n_days w ->
  returns (predict_next_values n_days) self w.
Proof.
  intros Hd Hn Hslope Hcal. destruct (is_trained self) eqn:Ht.
  - destruct (Hslope eq_refl) as [slope Hs].
    exact (predict_next_values_trained_returns n_days self w slope Ht Hs Hd Hn Hcal).
  - destruct (train_model_returns self w Hd) as (tr & s1 & w1 & Htrain & Ht1 & [slope Hs] & Hh).
    destruct (train_model_keeps self w tr s1 w1 Htrain) as [_ Hclock].
    unfold returns. rewrite (predict_next_values_untrained n_days self w tr s1 w1 Ht Htrain Ht1).
    apply (predict_next_values_trained_returns n_days s1 w1 slope Ht1 Hs); [|exact Hn|].
    + rewrite Hh. exact Hd.
    + intros k. rewrite Hclock. apply Hcal.
Qed.

(** C10.  [predict_next_values] writes to the engine: called on an
    untrained engine it runs [train_model] first, and the engine it leaves
    is the one [train_model] leaves, with the four entries of [model_data];
    called on a trained engine it leaves it as it was.  After every call
    that returns, the engine is trained and [model_data] is not empty. *)
Theorem predict_next_values_leaves_engine_trained (n_days : Z) (self : t) (w : Env) :
  returns (predict_next_values n_days) self w ->
  is_trained (state_after (predict_next_values n_days) self w) = true
  /\ model_data (state_after (predict_next_values n_days) self w) <> ∅
  /\ (is_trained self = false ->
      returns train_model self w
      /\ state_after (predict_next_values n_days) self w = state_after train_model self w
      /\ state_after (predict_next_values n_days) self w <> self
      /\ Forall (fun key =>
                   is_Some (model_data (state_after (predict_next_values n_days) self w) !! key))
                trained_keys)
  /\ (is_trained self = true ->
      state_after (predict_next_values n_days) self w = self).
Proof.
  intros [r Hok]. unfold state_after, returns.
  rewrite predict_next_values_state.
  destruct (is_trained self) eqn:Ht.
  - split; [exact Ht|]. split; [|split; [discriminate|reflexivity]].
    destruct (model_data self !! "trend_slope") as [slope|] eqn:Hs.
    + intros Hempty. rewrite Hempty, lookup_empty in Hs. discriminate.
    + destruct (predict_next_values_needs_slope n_days self w Ht Hs) as (e & w' & Hr).
      rewrite Hr in Hok. discriminate.
  - pose proof (train_model_state self w) as Hst.
    destruct (train_model self w) as [[[tr|e] s1] w1] eqn:Htrain.
    + destruct Hst as (Htrained & Hkeys & _). simpl.
      split; [exact Htrained|].
      assert (Hne : model_data s1 <> ∅).
      { intros Hempty. inversion Hkeys as [|key keys [x Hx] _].
        rewrite Hempty, lookup_empty in Hx. discriminate. }
      split; [exact Hne|]. split; [|discriminate].
      intros _. split; [eexists; reflexivity|]. split; [reflexivity|].
      split; [|exact Hkeys].
      intros Heq. rewrite Heq, Ht in Htrained. discriminate.
    + rewrite (predict_next_values_train_raises n_days self w e s1 w1 Ht Htrain) in Hok.
      discriminate.
Qed.

End MLEngineFacts.

(** ** The statements on inputs *)


(** C3 on fifty-one numbered messages. *)
Lemma fifty_one_messages_example :
  length numbered_messages = S capacity
  /\ exists bot',
      append_all numbered_messages fresh_chatbot quiet_env = (Ok tt, bot', quiet_env)
      /\ length (conversation_history bot') = capacity
      /\ conversation_history bot' = tl (map as_message numbered_messages).
Proof.
  split; [reflexivity|].
  destruct (proj2 history_is_bounded_and_fifo (MLEngine.init [one_day])
              numbered_messages quiet_env) as (bot' & Hrun & _ & _ & Hlast).
  exists bot'. split; [exact Hrun|]. apply Hlast. reflexivity.
Defined.



(** C4 on an engine without data, whose training raises. *)
Lemma prediction_failure_example :
  exists bot' history,
    process_message "predict next week" chatbot_without_data quiet_env
      = (Ok "❌ Error during prediction: division by zero", bot',
         drew (printed "🤖 Entraînement du modèle simulé..."
                 (ticked (env_at_collaborator_call "handle_prediction_request" quiet_env))))
    /\ PyStr.contains "❌" "❌ Error during prediction: division by zero" = true
    /\ get_conversation_history bot'
         (drew (printed "🤖 Entraînement du modèle simulé..."
                  (ticked (env_at_collaborator_call "handle_prediction_request" quiet_env))))
       = (Ok history, bot',
          drew (printed "🤖 Entraînement du modèle simulé..."
                  (ticked (env_at_collaborator_call "handle_prediction_request" quiet_env))))
    /\ last history
       = Some {| role := "assistant";
                 content := PStr "❌ Error during prediction: division by zero" |}.
Proof.
  apply (prediction_failure_is_reported chatbot_without_data quiet_env
           (Exception "ZeroDivisionError" "division by zero") (MLEngine.init [])).
  reflexivity.
Defined.

(** C5 as stated fails: "quick" is no key and contains none, the two tiers
    of the specification find nothing, and the lookup returns a reply. *)
Lemma quick_pattern_is_a_third_tier :
  two_tier_lookup "quick" = None
  /\ get_instant_response "quick" fresh_chatbot quiet_env
     = (Ok (Some lightning_reply), fresh_chatbot, quiet_env).
Proof. split; reflexivity. Qed.

(** C6 as stated fails: the reply to "hello" is the canned reply of the
    instant cache, which is none of the greeting templates. *)
Lemma hello_reply_is_not_a_greeting_template :
  fst (fst (process_message "hello" fresh_chatbot quiet_env))
    = Ok "Hello! 👋 I'm your AI-powered predictive assistant! Ready for instant predictions?"
  /\ ~ In "Hello! 👋 I'm your AI-powered predictive assistant! Ready for instant predictions?"
         (simulation_responses greeting).
Proof.
  split; [reflexivity|].
  intros [H|[H|[H|[]]]]; discriminate H.
Qed.

(** C6 as amended, on the collaborator of the scenario. *)
Lemma training_scenario_example :
  exists (reply : string) bot',
    @process_message unit scenario_collaborator "Train a new model"
      (ChatbotEngine_init tt) quiet_env
      = (Ok reply, bot', env_at_collaborator_call "handle_training_request" quiet_env)
    /\ PyStr.contains "91.8%" reply = true
    /\ PyStr.contains "12.4" reply = true.
Proof.
  apply (proj2 (@hello_and_training_scenario unit scenario_collaborator)
           (ChatbotEngine_init tt) quiet_env
           {| Training.model_name := "X"; Training.score := 0.918;
              Training.mae := 10; Training.training_time := 12.4;
              Training.improvement := 0.03 |} tt);
    reflexivity.
Defined.

(** C10 on a fresh engine with a day of data. *)
Lemma prediction_trains_example :
  returns (MLEngine.predict_next_values 7) (MLEngine.init [one_day]) quiet_env
  /\ MLEngine.is_trained
       (state_after (MLEngine.predict_next_values 7) (MLEngine.init [one_day]) quiet_env)
     = true
  /\ MLEngine.model_data
       (state_after (MLEngine.predict_next_values 7) (MLEngine.init [one_day]) quiet_env)
     <> ∅.
Proof.
  assert (Hr : returns (MLEngine.predict_next_values 7) (MLEngine.init [one_day]) quiet_env).
  { unfold returns. vm_compute. eexists. reflexivity. }
  split; [exact Hr|].
  destruct (MLEngineFacts.predict_next_values_leaves_engine_trained 7
              (MLEngine.init [one_day]) quiet_env Hr) as (H1 & H2 & _).
  split; assumption.
Defined.

(** ** Further properties of the conversational core *)

Section MoreCoreProperties.

Context {E : Type} {collaborator : Collaborator E}.

Implicit Types (bot : ChatbotEngine E) (w : Env) (msg : string).


Lemma exact_key_is_first_key (s reply : string) :
  dict_get s instant_cache = Some reply ->
  first_key_in s instant_cache = Some (s, reply).
Proof.
  unfold instant_cache. cbn [dict_get].
  repeat match goal with
         | |- context [String.eqb s ?k] =>
             destruct (String.eqb_spec s k) as [->|_]; [intros [= <-]; reflexivity|]
         end.
  discriminate.
Qed.


Lemma startswith_prefix (a b s : string) :
  PyStr.startswith (a +:+ b) s = true -> PyStr.startswith a s = true.
Proof.
  revert s. induction a as [|c a IH]; intros s H; [apply PyStrFacts.startswith_nil|].
  destruct s as [|d s]; simpl in *; [discriminate|].
  destruct (Ascii.eqb c d); [apply IH; exact H|discriminate].
Qed.

(** A text that contains a word contains the beginning of the word. *)
Lemma contains_prefix (a b s : string) :
  PyStr.contains (a +:+ b) s = true -> PyStr.contains a s = true.
Proof.
  induction s as [|d s IH]; simpl; intros H.
  - apply (startswith_prefix a b). exact H.
  - apply orb_true_iff in H as [H|H].
    + change (PyStr.startswith (a +:+ b) (String d s) = true) in H.
      pose proof (startswith_prefix a b _ H) as Hp. simpl in Hp. rewrite Hp. reflexivity.
    + rewrite (IH H). apply orb_true_r.
Qed.

Lemma no_instant_response msg bot w :
  get_instant_response msg bot w = (Ok None, bot, w) ->
  three_tier_lookup msg = None
  /\ forall key, In key (map fst instant_cache) ->
       PyStr.contains key (PyStr.lower msg) = false.
Proof.
  rewrite get_instant_response_run. intros H.
  assert (Hl : three_tier_lookup msg = None) by congruence.
  split; [exact Hl|]. intros key Hin.
  unfold three_tier_lookup, two_tier_lookup in Hl.
  destruct (dict_get _ instant_cache); [discriminate|].
  destruct (first_key_in (PyStr.lower msg) instant_cache) as [[k r]|] eqn:Hscan;
    [discriminate|].
  apply in_map_iff in Hin as ([k r] & <- & Hin).
  exact (List.find_none _ _ Hscan _ Hin).
Qed.

Lemma classified_general msg :
  intent (classified msg) = general ->
  forall key, In key (map fst ml_keywords) ->
    PyStr.contains key (PyStr.lower msg) = false.
Proof.
  unfold classified. intros H key Hin.
  destruct (first_key_in (PyStr.lower msg) ml_keywords) as [[k i]|] eqn:Hscan.
  - exfalso. simpl in H. subst i.
    apply List.find_some in Hscan as [Hin' _].
    unfold ml_keywords in Hin'. simpl in Hin'.
    repeat (destruct Hin' as [Hin'|Hin']; [discriminate Hin'|]). exact Hin'.
  - apply in_map_iff in Hin as ([k i] & <- & Hin).
    exact (List.find_none _ _ Hscan _ Hin).
Qed.

Lemma detected_is_classified msg bot w (r : IntentResult) bot1 w1 :
  detect_ml_intent msg bot w = (Ok r, bot1, w1) -> r = classified msg.
Proof. rewrite detect_ml_intent_run. congruence. Qed.

(** The greeting and the general handlers, run: neither calls the engine. *)
Lemma handle_greeting_run bot w :
  exists reply, In reply (simulation_responses greeting) /\
    handle_greeting bot w =
      (Ok reply,
       {| ml_engine := ml_engine bot;
          conversation_history :=
            appended (conversation_history bot) "assistant" reply |},
       drew (logged "handle_greeting" w)).
Proof.
  unfold handle_greeting.
  unfold bind at 1. unfold enter at 1. unfold bind at 1.
  destruct (choice_template greeting bot (logged "handle_greeting" w)) as (x & Hin & ->).
  exists x. split; [exact Hin|]. reflexivity.
Qed.

Lemma handle_general_request_run msg bot w :
  exists picked, In picked (simulation_responses general) /\
    handle_general_request msg bot w =
      (Ok (general_reply msg picked),
       {| ml_engine := ml_engine bot;
          conversation_history :=
            appended (conversation_history bot) "assistant" (general_reply msg picked) |},
       if subtopic msg then logged "handle_general_request" w
       else drew (logged "handle_general_request" w)).
Proof.
  destruct (choice_template general bot (logged "handle_general_request" w))
    as (x & Hin & Hx).
  exists x. split; [exact Hin|].
  unfold handle_general_request, general_reply, subtopic.
  unfold bind at 1. unfold enter at 1. unfold bind at 1. unfold py_lower, ret at 1.
  unfold bind at 1.
  destruct (PyStr.any_in ["how"; "work"; "explain"; "methodology"] _); [reflexivity|].
  destruct (PyStr.any_in ["help"; "assistance"; "commands"] _); [reflexivity|].
  destruct (PyStr.any_in ["data"; "dataset"; "information"] _); [reflexivity|].
  unfold bind at 1. rewrite Hx. reflexivity.
Qed.

Lemma instant_reply_run msg reply bot w :
  get_instant_response msg bot w = (Ok (Some reply), bot, w) ->
  process_message msg bot w
  = (Ok reply,
     {| ml_engine := ml_engine bot;
        conversation_history :=
          appended (appended (conversation_history bot) "user" msg) "assistant" reply |},
     w).
Proof.
  rewrite get_instant_response_run. intros H.
  apply process_message_instant. congruence.
Qed.



(** X6.  [process_message] calls the engine only for the prediction, the
    training and the analysis intents: when an instant response answers, or
    the classifier returns [greeting] or [general], the engine is left as
    it was. *)
Theorem engine_is_called_only_for_ml_intents msg bot w
    (instant : option string) (r : IntentResult) w1 :
  get_instant_response msg bot w = (Ok instant, bot, w) ->
  detect_ml_intent msg bot w = (Ok r, bot, w1) ->
  instant <> None \/ intent r = greeting \/ intent r = general ->
  ml_engine (state_after (process_message msg) bot w) = ml_engine bot.
Proof.
  intros Hinst Hdet Hcase. unfold state_after.
  apply detected_is_classified in Hdet. subst r.
  destruct instant as [reply|].
  - rewrite (instant_reply_run msg reply bot w Hinst).
    reflexivity.
  - destruct (no_instant_response msg bot w Hinst) as [Hl _].
    rewrite (process_message_classified msg bot w Hl).
    destruct Hcase as [Hc|[Hc|Hc]]; [contradiction| |]; rewrite Hc; simpl handler.
    + destruct (handle_greeting_run
                  {| ml_engine := ml_engine bot;
                     conversation_history :=
                       appended (conversation_history bot) "user" msg |}
                  (logged "detect_ml_intent" (drew w))) as (reply & _ & ->).
      reflexivity.
    + destruct (handle_general_request_run msg
                  {| ml_engine := ml_engine bot;
                     conversation_history :=
                       appended (conversation_history bot) "user" msg |}
                  (logged "detect_ml_intent" (drew w))) as (picked & _ & ->).
      reflexivity.
Qed.

(** X7.  After a reset the next exchange leaves a history of exactly two
    entries, the user's message and the reply returned; the reset itself
    leaves the engine as it was. *)
Theorem exchange_after_reset msg bot w :
  clear_conversation bot w
    = (Ok tt, {| ml_engine := ml_engine bot; conversation_history := [] |}, w)
  /\ exists (reply : string) eng' w',
      (clear_conversation ;; process_message msg) bot w
      = (Ok reply,
         {| ml_engine := eng';
            conversation_history :=
              [ {| role := "user"; content := PStr msg |};
                {| role := "assistant"; content := PStr reply |} ] |},
         w').
Proof.
  split; [reflexivity|].
  unfold bind at 1. unfold clear_conversation, modify.
  destruct (process_message_answers msg
              {| ml_engine := ml_engine bot; conversation_history := [] |} w)
    as (reply & eng' & w' & ->).
  exists reply, eng', w'. reflexivity.
Qed.



End MoreCoreProperties.

(** ** Properties for any tables of case and white space *)

Module AnyTextFacts.

(** At the two functions of ASCII the methods are those of the first
    part. *)
Lemma at_ascii {E} {collaborator : Collaborator E} :
  AnyText.detect_ml_intent (E:=E) PyStr.lower = detect_ml_intent
  /\ AnyText.get_instant_response (E:=E) PyStr.lower PyStr.strip = get_instant_response
  /\ AnyText.handle_general_request (E:=E) PyStr.lower = handle_general_request
  /\ AnyText.process_message (E:=E) PyStr.lower PyStr.strip = process_message.
Proof. repeat split. Qed.

Lemma isspace_not_letter (c : ascii) : PyStr.isspace c = true -> is_letter c = false.
Proof. destruct c as [[] [] [] [] [] [] [] []]; intros H; try reflexivity; discriminate H. Qed.

Lemma lstrip_frame (s : string) :
  exists before, s = before +:+ PyStr.lstrip s /\ letterless before = true.
Proof.
  induction s as [|c s (before & Heq & Hb)].
  - exists "". split; reflexivity.
  - simpl PyStr.lstrip. destruct (PyStr.isspace c) eqn:Hc.
    + exists (String c before). split.
      * change (String c s = String c (before +:+ PyStr.lstrip s)). f_equal. exact Heq.
      * unfold letterless. simpl. rewrite (isspace_not_letter c Hc). exact Hb.
    + exists "". split; reflexivity.
Qed.

Lemma rstrip_frame (s : string) :
  exists after, s = PyStr.rstrip s +:+ after /\ letterless after = true.
Proof.
  induction s as [|c s (after & Heq & Ha)].
  - exists "". split; reflexivity.
  - simpl PyStr.rstrip. destruct (PyStr.rstrip s) as [|r0 r] eqn:Hr.
    + destruct (PyStr.isspace c) eqn:Hc.
      * exists (String c after). split.
        -- change (String c s = String c ("" +:+ after)). f_equal. exact Heq.
        -- unfold letterless. simpl. rewrite (isspace_not_letter c Hc). exact Ha.
      * exists after. split; [|exact Ha].
        change (String c s = String c ("" +:+ after)). f_equal. exact Heq.
    + exists after. split; [|exact Ha].
      change (String c s = String c (String r0 r +:+ after)). f_equal. exact Heq.
Qed.

(** The trimming of ASCII white space is one. *)
Lemma strip_trims : trims PyStr.strip.
Proof.
  intros s. unfold PyStr.strip.
  destruct (lstrip_frame s) as (before & Hb & Hbl).
  destruct (rstrip_frame (PyStr.lstrip s)) as (after & Ha & Hal).
  exists before, after. split; [|split; assumption].
  rewrite <- Ha. exact Hb.
Qed.

Lemma letter_differs (k c : ascii) :
  is_letter k = true -> is_letter c = false -> Ascii.eqb k c = false.
Proof.
  intros Hk Hc. destruct (Ascii.eqb_spec k c) as [->|_]; [|reflexivity].
  rewrite Hk in Hc. discriminate.
Qed.

Lemma contains_after_letterless (key before s : string) :
  lettered key = true -> letterless before = true ->
  PyStr.contains key (before +:+ s) = PyStr.contains key s.
Proof.
  intros Hk Hb. destruct key as [|k key]; [rewrite !PyStrFacts.contains_nil; reflexivity|].
  unfold lettered in Hk. simpl in Hk. apply andb_true_iff in Hk as [Hk _].
  induction before as [|c before IH]; [reflexivity|].
  unfold letterless in Hb. simpl in Hb. apply andb_true_iff in Hb as [Hc Hb].
  apply negb_true_iff in Hc.
  change (String c before +:+ s) with (String c (before +:+ s)).
  simpl. rewrite (letter_differs k c Hk Hc). simpl. apply IH. exact Hb.
Qed.

Lemma startswith_before_letterless (key s after : string) :
  lettered key = true -> letterless after = true ->
  PyStr.startswith key (s +:+ after) = PyStr.startswith key s.
Proof.
  intros Hk Ha. revert s Hk. induction key as [|k key IH]; intros s Hk; [reflexivity|].
  unfold lettered in Hk. simpl in Hk. apply andb_true_iff in Hk as [Hk Hkey].
  destruct s as [|c s].
  - change ("" +:+ after) with after.
    destruct after as [|c after]; [reflexivity|].
    unfold letterless in Ha. simpl in Ha. apply andb_true_iff in Ha as [Hc _].
    apply negb_true_iff in Hc. simpl. rewrite (letter_differs k c Hk Hc). reflexivity.
  - change (String c s +:+ after) with (String c (s +:+ after)). simpl.
    destruct (Ascii.eqb k c); [|reflexivity]. apply IH. exact Hkey.
Qed.

Lemma contains_letterless (key after : string) :
  lettered key = true -> letterless after = true ->
  PyStr.contains key after = PyStr.contains key "".
Proof.
  intros Hk Ha. destruct key as [|k key]; [rewrite !PyStrFacts.contains_nil; reflexivity|].
  unfold lettered in Hk. simpl in Hk. apply andb_true_iff in Hk as [Hk _].
  induction after as [|c after IH]; [reflexivity|].
  unfold letterless in Ha. simpl in Ha. apply andb_true_iff in Ha as [Hc Ha].
  apply negb_true_iff in Hc.
  simpl. rewrite (letter_differs k c Hk Hc). simpl. apply IH. exact Ha.
Qed.

Lemma contains_before_letterless (key s after : string) :
  lettered key = true -> letterless after = true ->
  PyStr.contains key (s +:+ after) = PyStr.contains key s.
Proof.
  intros Hk Ha. induction s as [|c s IH].
  - change ("" +:+ after) with after. apply contains_letterless; assumption.
  - change (String c s +:+ after) with (String c (s +:+ after)).
    simpl PyStr.contains.
    change (String c (s +:+ after)) with (String c s +:+ after).
    rewrite (startswith_before_letterless key (String c s) after Hk Ha), IH.
    reflexivity.
Qed.

Section Trimmed.

Variables (strip : string -> string).

Hypothesis strip_trims : trims strip.

(** A word of lowercase letters occurs in the trimmed text when it occurs
    in the text. *)
Lemma contains_trimmed (key s : string) :
  lettered key = true -> PyStr.contains key (strip s) = PyStr.contains key s.
Proof.
  intros Hk. destruct (strip_trims s) as (before & after & Heq & Hb & Ha).
  transitivity (PyStr.contains key (before +:+ strip s +:+ after)).
  - rewrite (contains_after_letterless key before _ Hk Hb).
    rewrite (contains_before_letterless key _ after Hk Ha). reflexivity.
  - rewrite <- Heq. reflexivity.
Qed.

Lemma first_key_in_trimmed {V} (d : list (string * V)) (s : string) :
  forallb (fun item => lettered (fst item)) d = true ->
  first_key_in (strip s) d = first_key_in s d.
Proof.
  unfold first_key_in. induction d as [|[k v] d IH]; simpl; intros H; [reflexivity|].
  apply andb_true_iff in H as [Hk Hd].
  rewrite (contains_trimmed k s Hk), (IH Hd). reflexivity.
Qed.

Lemma any_in_trimmed (words : list string) (s : string) :
  forallb lettered words = true ->
  PyStr.any_in words (strip s) = PyStr.any_in words s.
Proof.
  unfold PyStr.any_in. induction words as [|k d IH]; simpl; intros H; [reflexivity|].
  apply andb_true_iff in H as [Hk Hd].
  rewrite (contains_trimmed k s Hk), (IH Hd). reflexivity.
Qed.

End Trimmed.

Section Methods.

Context {E : Type} {collaborator : Collaborator E}.

Variables (lower strip : string -> string).

Implicit Types (bot : ChatbotEngine E) (w : Env) (msg : string).

Lemma lettered_keys :
  forallb (fun item => lettered (fst item)) instant_cache = true
  /\ forallb lettered quick_patterns = true.
Proof. split; reflexivity. Qed.

(** What [get_instant_response] computes on a text, and that it leaves the
    chatbot and the environment as they were. *)
Lemma any_get_instant_response_scan msg bot w :
  AnyText.get_instant_response lower strip msg bot w
  = (Ok (AnyTextDefs.scan_lookup lower strip msg), bot, w).
Proof.
  unfold AnyText.get_instant_response, AnyTextDefs.scan_lookup, AnyText.py_lower. run.
  destruct (dict_get _ instant_cache) as [reply|] eqn:Hexact.
  - rewrite (exact_key_is_first_key _ _ Hexact). reflexivity.
  - destruct (first_key_in _ instant_cache) as [[key reply]|]; [reflexivity|].
    destruct (PyStr.any_in quick_patterns _); reflexivity.
Qed.

(** A reply of the lookup is never the empty text, so [if instant_response]
    tests exactly that there is one. *)
Lemma is_reply_scan msg :
  is_reply (AnyTextDefs.scan_lookup lower strip msg)
  = match AnyTextDefs.scan_lookup lower strip msg with Some _ => true | None => false end.
Proof.
  unfold AnyTextDefs.scan_lookup.
  destruct (first_key_in _ instant_cache) as [[key reply]|] eqn:Hscan.
  - simpl. rewrite (first_key_in_replies _ _ _ Hscan). reflexivity.
  - destruct (PyStr.any_in quick_patterns _); reflexivity.
Qed.

Lemma any_detect_ml_intent_run msg bot w :
  AnyText.detect_ml_intent lower msg bot w
  = (Ok (AnyTextDefs.classified lower msg), bot, logged "detect_ml_intent" w).
Proof.
  unfold AnyText.detect_ml_intent, AnyTextDefs.classified, AnyText.py_lower. run.
  destruct (first_key_in _ ml_keywords) as [[key i]|]; reflexivity.
Qed.

Lemma any_classified_first_category msg :
  AnyTextDefs.classified lower msg
  = {| intent := first_category (lower msg);
       confidence := if Intent_eqb (first_category (lower msg)) general then 0.9 else 0.8 |}.
Proof.
  unfold AnyTextDefs.classified, first_category, first_key_in, ml_keywords, find.
  change (keywords_of prediction)
    with ["predict"; "forecast"; "prediction"; "future"; "tomorrow"; "next"].
  change (keywords_of training) with ["train"; "training"; "learn"; "model"; "optimize"].
  change (keywords_of analysis)
    with ["analyze"; "analysis"; "trend"; "pattern"; "insight"; "data"].
  change (keywords_of greeting) with ["hello"; "hi"; "hey"; "good"].
  unfold PyStr.any_in, existsb. cbv beta iota delta [fst].
  repeat (destruct (PyStr.contains _ (lower msg)); [reflexivity|cbn [orb]]).
  reflexivity.
Qed.

Lemma any_classified_general msg :
  intent (AnyTextDefs.classified lower msg) = general ->
  forall key, In key (map fst ml_keywords) ->
    PyStr.contains key (lower msg) = false.
Proof.
  unfold AnyTextDefs.classified. intros H key Hin.
  destruct (first_key_in (lower msg) ml_keywords) as [[k i]|] eqn:Hscan.
  - exfalso. simpl in H. subst i.
    apply List.find_some in Hscan as [Hin' _].
    unfold ml_keywords in Hin'. simpl in Hin'.
    repeat (destruct Hin' as [Hin'|Hin']; [discriminate Hin'|]). exact Hin'.
  - apply in_map_iff in Hin as ([k i] & <- & Hin).
    exact (List.find_none _ _ Hscan _ Hin).
Qed.

(** The instant path of [process_message]. *)
Lemma any_process_message_instant msg reply bot w :
  AnyTextDefs.scan_lookup lower strip msg = Some reply ->
  AnyText.process_message lower strip msg bot w =
    (Ok reply,
     {| ml_engine := ml_engine bot;
        conversation_history :=
          appended (appended (conversation_history bot) "user" msg) "assistant" reply |},
     w).
Proof.
  intros H. unfold AnyText.process_message.
  unfold bind at 1. unfold add_message at 1, modify.
  unfold bind at 1. rewrite any_get_instant_response_scan.
  rewrite is_reply_scan, H. reflexivity.
Qed.

(** The path of [process_message] past the instant responses. *)
Lemma any_process_message_classified msg bot w :
  AnyTextDefs.scan_lookup lower strip msg = None ->
  AnyText.process_message lower strip msg bot w =
    AnyTextDefs.handler lower (intent (AnyTextDefs.classified lower msg)) msg
      {| ml_engine := ml_engine bot;
         conversation_history := appended (conversation_history bot) "user" msg |}
      (logged "detect_ml_intent" (drew w)).
Proof.
  intros H. unfold AnyText.process_message.
  unfold bind at 1. unfold add_message at 1, modify.
  unfold bind at 1. rewrite any_get_instant_response_scan.
  rewrite is_reply_scan, H.
  unfold bind at 1. unfold simulate_typing_delay. run.
  rewrite any_detect_ml_intent_run. unfold AnyTextDefs.handler.
  destruct (intent (AnyTextDefs.classified lower msg)); reflexivity.
Qed.

(** The general handler, run: it does not call the engine. *)
Lemma any_handle_general_request_run msg bot w :
  exists picked, In picked (simulation_responses general) /\
    AnyText.handle_general_request lower msg bot w =
      (Ok (AnyTextDefs.general_reply lower msg picked),
       {| ml_engine := ml_engine bot;
          conversation_history :=
            appended (conversation_history bot) "assistant"
              (AnyTextDefs.general_reply lower msg picked) |},
       if AnyTextDefs.subtopic lower msg then logged "handle_general_request" w
       else drew (logged "handle_general_request" w)).
Proof.
  destruct (choice_template general bot (logged "handle_general_request" w))
    as (x & Hin & Hx).
  exists x. split; [exact Hin|].
  unfold AnyText.handle_general_request, AnyTextDefs.general_reply, AnyTextDefs.subtopic.
  unfold bind at 1. unfold enter at 1. unfold bind at 1.
  unfold AnyText.py_lower, ret at 1.
  unfold bind at 1.
  destruct (PyStr.any_in ["how"; "work"; "explain"; "methodology"] _); [reflexivity|].
  destruct (PyStr.any_in ["help"; "assistance"; "commands"] _); [reflexivity|].
  destruct (PyStr.any_in ["data"; "dataset"; "information"] _); [reflexivity|].
  unfold bind at 1. rewrite Hx. reflexivity.
Qed.

Lemma any_handler_answers (i : Intent) msg : answers (E:=E) (AnyTextDefs.handler lower i msg).
Proof.
  destruct i; simpl.
  - apply handle_greeting_answers.
  - apply handle_prediction_request_answers.
  - apply handle_training_request_answers.
  - apply handle_analysis_request_answers.
  - intros bot w. destruct (any_handle_general_request_run msg bot w) as (picked & _ & ->).
    eauto.
Qed.

(** Every call of [process_message] on a text returns a reply, having
    appended the user's message and then the reply. *)
Lemma any_process_message_answers msg bot w :
  exists (reply : string) eng' w',
    AnyText.process_message lower strip msg bot w =
      (Ok reply,
       {| ml_engine := eng';
          conversation_history :=
            appended (appended (conversation_history bot) "user" msg) "assistant" reply |},
       w').
Proof.
  destruct (AnyTextDefs.scan_lookup lower strip msg) as [reply|] eqn:Hl.
  - rewrite (any_process_message_instant msg reply bot w Hl). eauto.
  - rewrite (any_process_message_classified msg bot w Hl).
    apply (any_handler_answers (intent (AnyTextDefs.classified lower msg)) msg).
Qed.

Hypothesis strip_trims : trims strip.

(** As no key and no pattern has anything but lowercase letters, scanning
    the trimmed text is scanning the text, and the three tiers give what
    the scan gives. *)
Lemma three_tier_is_scan msg :
  AnyTextDefs.three_tier_lookup lower strip msg = AnyTextDefs.scan_lookup lower strip msg.
Proof.
  unfold AnyTextDefs.three_tier_lookup, AnyTextDefs.two_tier_lookup, AnyTextDefs.scan_lookup.
  destruct lettered_keys as [Hc Hq]. cbv zeta.
  rewrite (any_in_trimmed strip strip_trims _ _ Hq).
  destruct (dict_get _ instant_cache) as [reply|] eqn:Hexact.
  - rewrite (exact_key_is_first_key _ _ Hexact). reflexivity.
  - rewrite (first_key_in_trimmed strip strip_trims instant_cache _ Hc).
    destruct (first_key_in _ instant_cache) as [[key reply]|]; reflexivity.
Qed.

Lemma any_no_instant_response msg bot w :
  AnyText.get_instant_response lower strip msg bot w = (Ok None, bot, w) ->
  AnyTextDefs.scan_lookup lower strip msg = None
  /\ forall key, In key (map fst instant_cache) ->
       PyStr.contains key (lower msg) = false.
Proof.
  rewrite any_get_instant_response_scan. intros H.
  assert (Hl : AnyTextDefs.scan_lookup lower strip msg = None) by congruence.
  split; [exact Hl|]. intros key Hin.
  unfold AnyTextDefs.scan_lookup in Hl. cbv zeta in Hl.
  rewrite (first_key_in_trimmed strip strip_trims instant_cache _ (proj1 lettered_keys)) in Hl.
  destruct (first_key_in (lower msg) instant_cache) as [[k r]|] eqn:Hscan;
    [discriminate|].
  apply in_map_iff in Hin as ([k r] & <- & Hin).
  exact (List.find_none _ _ Hscan _ Hin).
Qed.

End Methods.

End AnyTextFacts.

(** ** Properties of the instant responses, the classifier and the exchange,
    for any tables of case and white space *)

Section AnyTextProperties.

Context {E : Type} {collaborator : Collaborator E}.

Variables (lower strip : string -> string).

Implicit Types (bot : ChatbotEngine E) (w : Env) (msg : string).

(** C5, as amended.  Whatever [str.lower] does to a text, and [str.strip]
    removing white space, the lookup returns on every text what the three
    tiers give: the reply of the key equal to the trimmed lowercased input,
    else the reply of the first key, in enumeration order, that occurs in
    the lowercased input, else the fixed reply of the quick patterns when
    one of them occurs in the lowercased input, else no match; and it
    leaves the chatbot and the environment as they were. *)
Theorem instant_lookup_has_three_tiers msg bot w :
  trims strip ->
  AnyText.get_instant_response lower strip msg bot w
  = (Ok (AnyTextDefs.three_tier_lookup lower strip msg), bot, w)
  /\ (AnyTextDefs.three_tier_lookup lower strip msg = None <->
      AnyTextDefs.two_tier_lookup lower strip msg = None
      /\ PyStr.any_in quick_patterns (lower msg) = false).
Proof.
  intros Htrims. split.
  - rewrite (AnyTextFacts.three_tier_is_scan lower strip Htrims).
    apply AnyTextFacts.any_get_instant_response_scan.
  - unfold AnyTextDefs.three_tier_lookup.
    destruct (AnyTextDefs.two_tier_lookup lower strip msg) as [reply|].
    + split; [discriminate|]. intros [H _]. discriminate H.
    + destruct (PyStr.any_in quick_patterns (lower msg)).
      * split; [discriminate|]. intros [_ H]. discriminate H.
      * split; [split; reflexivity|reflexivity].
Qed.

(** C9, as amended.  Whatever [str.lower] and [str.strip] do, every call of
    [process_message] on a text first appends the user's message: the
    lookup of the instant responses, the classifier and the handler run
    with it in the history.  The call returns a reply and never raises; the
    history it leaves is the one it found with the user's message appended,
    then the reply appended as the assistant's; its last two entries are
    these two, and the content of the last is the reply returned. *)
Theorem process_message_appends_user_then_reply msg bot w :
  (forall user_message : pyval,
     AnyText.process_message lower strip user_message bot w
     = AnyTextDefs.respond lower strip user_message
         {| ml_engine := ml_engine bot;
            conversation_history :=
              appended (conversation_history bot) "user" user_message |}
         w)
  /\ exists (reply : string) bot' w',
      AnyText.process_message lower strip msg bot w = (Ok reply, bot', w')
      /\ conversation_history bot'
         = appended (appended (conversation_history bot) "user" msg) "assistant" reply
      /\ lastn 2 (conversation_history bot')
         = [ {| role := "user"; content := PStr msg |};
             {| role := "assistant"; content := PStr reply |} ]
      /\ last (conversation_history bot')
         = Some {| role := "assistant"; content := PStr reply |}.
Proof.
  split; [intros user_message; reflexivity|].
  destruct (AnyTextFacts.any_process_message_answers lower strip msg bot w)
    as (reply & eng' & w' & ->).
  eexists. eexists. eexists. split; [reflexivity|]. simpl.
  split; [reflexivity|]. split; [|apply last_appended].
  rewrite !appended_lastn, lastn_app_lastn, lastn_lastn, <- List.app_assoc
    by (rewrite capacity_value; lia).
  apply (lastn_app_exact (conversation_history bot)
           [ {| role := "user"; content := PStr msg |};
             {| role := "assistant"; content := PStr reply |} ]).
Qed.

(** X1.  Whatever [str.lower] does to a text, the classifier returns the
    first category, in the order prediction, training, analysis, greeting,
    that has a keyword occurring in the lowercased text, with confidence
    0.8, and [general] with confidence 0.9 when no keyword occurs; it
    changes nothing. *)
Theorem classifier_follows_category_order msg bot w :
  AnyText.detect_ml_intent lower msg bot w
  = (Ok {| intent := first_category (lower msg);
           confidence :=
             if Intent_eqb (first_category (lower msg)) general then 0.9 else 0.8 |},
     bot, logged "detect_ml_intent" w).
Proof.
  unfold AnyText.detect_ml_intent, AnyText.py_lower. run.
  unfold first_category, first_key_in, ml_keywords, find.
  change (keywords_of prediction)
    with ["predict"; "forecast"; "prediction"; "future"; "tomorrow"; "next"].
  change (keywords_of training) with ["train"; "training"; "learn"; "model"; "optimize"].
  change (keywords_of analysis)
    with ["analyze"; "analysis"; "trend"; "pattern"; "insight"; "data"].
  change (keywords_of greeting) with ["hello"; "hi"; "hey"; "good"].
  unfold PyStr.any_in, existsb. cbv beta iota delta [fst].
  repeat (destruct (PyStr.contains _ (lower msg)); [reflexivity|cbn [orb]]).
  reflexivity.
Qed.

(** X2.  The exact tier of the instant responses never decides: whatever
    [str.lower] and [str.strip] do, on every text the lookup returns what
    the scan of the keys alone returns, the reply of the first key
    occurring in the trimmed lowercased input. *)
Theorem exact_tier_is_subsumed msg bot w :
  AnyText.get_instant_response lower strip msg bot w
  = (Ok (AnyTextDefs.scan_lookup lower strip msg), bot, w).
Proof.
  unfold AnyText.get_instant_response, AnyTextDefs.scan_lookup, AnyText.py_lower. run.
  destruct (dict_get _ instant_cache) as [reply|] eqn:Hexact.
  - apply exact_key_is_first_key in Hexact. rewrite Hexact. reflexivity.
  - destruct (first_key_in _ instant_cache) as [[key reply]|]; [reflexivity|].
    destruct (PyStr.any_in quick_patterns _); reflexivity.
Qed.

(** X4.  When [process_message] reaches the general handler, the lowercased
    text contains neither "help" nor "data": the instant responses and the
    classifier have taken those.  So the help template answers only
    "assistance" or "commands", and the data template only "information".
    This whatever [str.lower] does to the text, [str.strip] removing white
    space. *)
Theorem general_handler_sees_no_help_nor_data msg bot w (r : IntentResult) w1 :
  trims strip ->
  AnyText.get_instant_response lower strip msg bot w = (Ok None, bot, w) ->
  AnyText.detect_ml_intent lower msg bot w = (Ok r, bot, w1) ->
  intent r = general ->
  PyStr.contains "help" (lower msg) = false
  /\ PyStr.contains "data" (lower msg) = false
  /\ PyStr.contains "dataset" (lower msg) = false
  /\ exists picked bot' w',
      In picked (simulation_responses general)
      /\ AnyText.process_message lower strip msg bot w
         = (Ok (if PyStr.any_in ["how"; "work"; "explain"; "methodology"] (lower msg)
                then how_it_works
                else if PyStr.any_in ["assistance"; "commands"] (lower msg)
                then help_commands
                else if PyStr.contains "information" (lower msg)
                then data_sources
                else picked +:+ general_suffix msg),
            bot', w').
Proof.
  intros Htrims Hnone Hdet Hgen.
  rewrite AnyTextFacts.any_detect_ml_intent_run in Hdet.
  assert (Hr : r = AnyTextDefs.classified lower msg) by congruence. subst r.
  destruct (AnyTextFacts.any_no_instant_response lower strip Htrims msg bot w Hnone)
    as [Hl Hkeys].
  pose proof (AnyTextFacts.any_classified_general lower msg Hgen) as Hkw.
  assert (Hhelp : PyStr.contains "help" (lower msg) = false).
  { apply Hkeys. simpl. tauto. }
  assert (Hdata : PyStr.contains "data" (lower msg) = false).
  { apply Hkw. simpl. tauto. }
  assert (Hset : PyStr.contains "dataset" (lower msg) = false).
  { destruct (PyStr.contains "dataset" (lower msg)) eqn:Hc; [|reflexivity].
    rewrite (contains_prefix "data" "set" _ Hc) in Hdata. discriminate. }
  split; [exact Hhelp|]. split; [exact Hdata|]. split; [exact Hset|].
  rewrite (AnyTextFacts.any_process_message_classified lower strip msg bot w Hl), Hgen.
  simpl AnyTextDefs.handler.
  destruct (AnyTextFacts.any_handle_general_request_run lower msg
              {| ml_engine := ml_engine bot;
                 conversation_history := appended (conversation_history bot) "user" msg |}
              (logged "detect_ml_intent" (drew w))) as (picked & Hin & ->).
  exists picked. eexists. eexists. split; [exact Hin|].
  unfold AnyTextDefs.general_reply, PyStr.any_in, existsb. rewrite Hhelp, Hdata, Hset.
  cbn [orb]. rewrite !orb_false_r. reflexivity.
Qed.

End AnyTextProperties.

(** ** The validation of the chat endpoint *)

Section EndpointProperties.

Context {E : Type} {collaborator : Collaborator E}.

Implicit Types (bot : ChatbotEngine E) (w : Env).

(** C7.  What the endpoint does with an empty, a missing, a malformed and
    a blank message.  The empty text and the missing message are refused
    before anything is processed, but the error 400 of the guard is caught
    by the endpoint's own handler and leaves as an error 500.  The number 5
    passes the guard: it is appended to the history as the user's message,
    then the lookup fails on it and the endpoint answers with an error 500.
    A text of three spaces passes the guard and is answered as a
    message. *)
Theorem chat_endpoint_on_empty_malformed_and_blank :
  (forall bot w,
     chat_endpoint {["message" := PStr ""]} bot w
     = (Raise (HTTPException 500 "Erreur de chat: 400: Message requis"), bot, w)
     /\ chat_endpoint ∅ bot w
        = (Raise (HTTPException 500 "Erreur de chat: 400: Message requis"), bot, w))
  /\ (forall bot w,
       chat_endpoint {["message" := PInt 5]} bot w
       = (Raise (HTTPException 500 "Erreur de chat: 'int' object has no attribute 'lower'"),
          {| ml_engine := ml_engine bot;
             conversation_history :=
               appended (conversation_history bot) "user" (PInt 5) |},
          w))
  /\ (forall bot w, exists (reply : string) eng' w',
       chat_endpoint {["message" := PStr "   "]} bot w
       = (Ok [ ("response", PStr reply);
               ("conversation_id", PStr "default");
               ("processing_time", PStr "⚡ Instant") ],
          {| ml_engine := eng';
             conversation_history :=
               appended (appended (conversation_history bot) "user" "   ")
                 "assistant" reply |},
          w')).
Proof.
  split; [|split].
  - intros bot w. split; reflexivity.
  - intros bot w. reflexivity.
  - intros bot w. unfold chat_endpoint, try_except.
    change (default (PStr "") ({["message" := PStr "   "]} !! "message")) with (PStr "   ").
    cbv beta iota delta [bind ret negb truthy String.eqb Ascii.eqb Bool.eqb].
    destruct (process_message_answers "   " bot w) as (reply & eng' & w' & ->).
    eauto.
Qed.

End EndpointProperties.

(** ** Further properties of the bounded history *)

(** X9.  What the truncation of [add_message] keeps, by the configured
    capacity: for a positive capacity the last [cap] entries, so the bound
    holds; for a capacity of zero everything, so nothing is ever dropped;
    for a negative capacity all but the first [-cap] entries. *)
Theorem truncation_by_capacity {A} (l : list A) :
  (forall cap, 0 < cap ->
     keep_last cap l = lastn (Z.to_nat cap) l
     /\ Z.of_nat (length (keep_last cap l)) <= cap)
  /\ keep_last 0 l = l
  /\ (forall cap, cap < 0 -> keep_last cap l = skipn (Z.to_nat (- cap)) l).
Proof.
  split; [|split].
  - intros cap Hcap. rewrite (keep_last_lastn cap l Hcap), length_lastn.
    split; [reflexivity|lia].
  - unfold keep_last, slice_from. simpl.
    destruct (Z.of_nat (length l) >? 0); [|reflexivity].
    rewrite Z.min_l by lia. reflexivity.
  - intros cap Hcap. unfold keep_last, slice_from.
    replace (Z.of_nat (length l) >? cap) with true by (symmetry; apply Z.gtb_lt; lia).
    replace (- cap <? 0) with false by (symmetry; apply Z.ltb_ge; lia).
    destruct (Z.min_spec (- cap) (Z.of_nat (length l))) as [[Hlt ->]|[Hge ->]];
      [reflexivity|].
    rewrite Nat2Z.id, !List.skipn_all2 by lia. reflexivity.
Qed.

(** ** Further properties of the simulated engine *)

Module MoreMLEngineFacts.
Import MLEngine.
Import MLEngineFacts.

Lemma range_empty (a b : Z) : b <= a -> range a b = [].
Proof. intros H. unfold range. replace (Z.to_nat (b - a)) with 0%nat by lia. reflexivity. Qed.

Lemma last_is_Some {A} (l : list A) : l <> [] -> exists x, last l = Some x.
Proof.
  intros H. destruct (last l) as [x|] eqn:Hl; [eauto|].
  apply last_None in Hl. contradiction.
Qed.

Lemma train_model_raises (self : t) (w : Env) :
  historical_data self = [] ->
  train_model self w
  = (Raise (Exception "ZeroDivisionError" "division by zero"), self,
     drew (printed "🤖 Entraînement du modèle simulé..." (ticked w))).
Proof. intros H. unfold train_model. run_ml. rewrite H. reflexivity. Qed.

(** X10.  [train_model] needs data and nothing else.  On an engine without
    data it raises a division by zero and leaves the engine as it was, not
    trained if it was not.  On an engine with data it returns, whatever the
    engine held: the engine is then trained, with a training time, its
    [model_data] holds exactly the four entries of a training, its data and
    its name are as they were, and the record carries its name. *)
Theorem train_model_needs_only_data (self : t) (w : Env) :
  (historical_data self = [] ->
   exists w',
     train_model self w
     = (Raise (Exception "ZeroDivisionError" "division by zero"), self, w'))
  /\ (historical_data self <> [] ->
      exists tr self' w',
        train_model self w = (Ok tr, self', w')
        /\ is_trained self' = true
        /\ is_Some (last_training_time self')
        /\ (forall key, is_Some (model_data self' !! key) <-> In key trained_keys)
        /\ historical_data self' = historical_data self
        /\ model_name self' = model_name self
        /\ Training.model_name tr = model_name self).
Proof.
  split.
  - intros H. eexists. apply train_model_raises. exact H.
  - intros Hd. unfold train_model. run_ml.
    destruct (historical_data self) as [|d l] eqn:Hh; [contradiction|].
    simpl length. cbv iota.
    eexists. eexists. eexists. split; [reflexivity|].
    cbv beta iota delta [set_model_data set_is_trained set_last_training_time
                         is_trained model_data historical_data model_name
                         last_training_time Training.model_name].
    split; [reflexivity|]. split; [eauto|]. split; [|auto].
    intros key. unfold trained_keys. simpl In. split.
    + intros [x Hx].
      destruct (decide (key = "mean_value")) as [->|?]; [tauto|].
      destruct (decide (key = "trend_slope")) as [->|?]; [tauto|].
      destruct (decide (key = "seasonal_amplitude")) as [->|?]; [tauto|].
      destruct (decide (key = "noise_level")) as [->|?]; [tauto|].
      simplify_map_eq.
    + intros [<-|[<-|[<-|[<-|[]]]]]; simplify_map_eq; eauto.
Qed.

Lemma predict_trained_without_days (n_days : Z) (self : t) (w : Env) :
  is_trained self = true -> historical_data self <> [] -> n_days <= 0 ->
  exists w',
    predict_next_values n_days self w
    = (Raise (Exception "ZeroDivisionError" "division by zero"), self, w').
Proof.
  intros Ht Hd Hn. unfold predict_next_values. unfold bind at 1. unfold get at 1.
  rewrite Ht. simpl negb. cbv iota. run_ml.
  destruct (last_is_Some _ Hd) as [d ->].
  rewrite (range_empty 0 n_days Hn). simpl for_each. run_ml. simpl. eauto.
Qed.

Lemma predict_without_days (n_days : Z) (self : t) (w : Env) :
  historical_data self <> [] -> n_days <= 0 ->
  exists self' w',
    predict_next_values n_days self w
    = (Raise (Exception "ZeroDivisionError" "division by zero"), self', w')
    /\ is_trained self' = true
    /\ (is_trained self = true -> self' = self).
Proof.
  intros Hd Hn. destruct (is_trained self) eqn:Ht.
  - destruct (predict_trained_without_days n_days self w Ht Hd Hn) as [w' Hr].
    exists self, w'. auto.
  - destruct (train_model_returns self w Hd)
      as (tr & s1 & w1 & Htrain & Ht1 & _ & Hh).
    rewrite (predict_next_values_untrained n_days self w tr s1 w1 Ht Htrain Ht1).
    assert (Hd1 : historical_data s1 <> []) by (rewrite Hh; exact Hd).
    destruct (predict_trained_without_days n_days s1 w1 Ht1 Hd1 Hn) as [w' Hr].
    exists s1, w'. split; [exact Hr|]. split; [exact Ht1|discriminate].
Qed.

(** X11.  When [predict_next_values] raises.  Without data: a division by
    zero from the training it starts when the engine is not trained, an
    index error when it is; the engine is as it was.  With data and no day
    to predict: a division by zero, after the training when the engine was
    not trained, which is then left trained.  On a trained engine whose
    [model_data] has no slope: a key error, the engine as it was. *)
Theorem predict_next_values_errors (n_days : Z) (self : t) (w : Env) :
  (historical_data self = [] -> is_trained self = false ->
   exists w',
     predict_next_values n_days self w
     = (Raise (Exception "ZeroDivisionError" "division by zero"), self, w'))
  /\ (historical_data self = [] -> is_trained self = true ->
      exists w',
        predict_next_values n_days self w
        = (Raise (Exception "IndexError" "list index out of range"), self, w'))
  /\ (historical_data self <> [] -> n_days <= 0 ->
      exists self' w',
        predict_next_values n_days self w
        = (Raise (Exception "ZeroDivisionError" "division by zero"), self', w')
        /\ is_trained self' = true
        /\ (is_trained self = true -> self' = self))
  /\ (historical_data self <> [] -> 1 <= n_days ->
      is_trained self = true -> model_data self !! "trend_slope" = None ->
      exists w',
        predict_next_values n_days self w
        = (Raise (Exception "KeyError" "'trend_slope'"), self, w')).
Proof.
  split; [|split; [|split]].
  - intros Hd Ht. eexists.
    apply (predict_next_values_train_raises n_days self w _ _ _ Ht).
    apply train_model_raises. exact Hd.
  - intros Hd Ht. unfold predict_next_values. unfold bind at 1. unfold get at 1.
    rewrite Ht. simpl negb. cbv iota. run_ml. rewrite Hd. simpl. eauto.
  - intros Hd Hn. exact (predict_without_days n_days self w Hd Hn).
  - intros Hd Hn Ht Hs. unfold predict_next_values. unfold bind at 1. unfold get at 1.
    rewrite Ht. simpl negb. cbv iota. run_ml.
    destruct (last_is_Some _ Hd) as [d ->].
    destruct (range 0 n_days) as [|i l] eqn:Hr.
    + pose proof (length_range 0 n_days) as Hlen. rewrite Hr in Hlen. simpl in Hlen. lia.
    + simpl for_each. run_ml. rewrite Hs. eauto.
Qed.

(** X12.  When [predict_next_values] returns: on an engine with data, asked
    for at least one day, untrained or trained with a slope, as long as the
    last day asked is within the calendar at every reading of the clock.
    The record then has one value and one date per day asked, no value is
    negative, and it carries the engine's name. *)
Theorem predict_next_values_shape (n_days : Z) (self : t) (w : Env) :
  historical_data self <> [] ->
  1 <= n_days ->
  (is_trained self = true -> is_Some (model_data self !! "trend_slope")) ->
  within_calendar n_days w ->
  exists r self' w',
    predict_next_values n_days self w = (Ok r, self', w')
    /\ length (Prediction.predictions_detail r) = Z.to_nat n_days
    /\ length (Prediction.dates r) = Z.to_nat n_days
    /\ Forall not_negative (Prediction.predictions_detail r)
    /\ Prediction.model_name r = model_name self.
Proof.
  intros Hd Hn Hslope Hcal. destruct (is_trained self) eqn:Ht.
  - destruct (Hslope eq_refl) as [slope Hs].
    destruct (predict_trained_shape n_days self w slope Ht Hs Hd Hn Hcal) as (r & w' & H).
    exists r, self, w'. exact H.
  - destruct (train_model_returns self w Hd)
      as (tr & s1 & w1 & Htrain & Ht1 & [slope Hs] & Hh).
    destruct (train_model_keeps self w tr s1 w1 Htrain) as [Hname Hclock].
    rewrite (predict_next_values_untrained n_days self w tr s1 w1 Ht Htrain Ht1).
    assert (Hd1 : historical_data s1 <> []) by (rewrite Hh; exact Hd).
    assert (Hcal1 : within_calendar n_days w1).
    { intros k. rewrite Hclock. apply Hcal. }
    destruct (predict_trained_shape n_days s1 w1 slope Ht1 Hs Hd1 Hn Hcal1) as (r & w' & H).
    exists r, s1, w'. rewrite <- Hname. exact H.
Qed.

(** A comprehension raises when each of its calls returns or raises the
    same exception, and one of them raises whatever the calls before it
    leave. *)
Lemma for_each_raises {S A B} (I : Env -> Prop) (e : exn)
    (f : A -> M S B) (l : list A) (s : S) w :
  I w ->
  (forall i w0, In i l -> I w0 ->
     (exists x w1, f i s w0 = (Ok x, s, w1) /\ I w1)
     \/ (exists w1, f i s w0 = (Raise e, s, w1))) ->
  (exists i, In i l /\ forall w0, I w0 -> exists w1, f i s w0 = (Raise e, s, w1)) ->
  exists w', for_each f l s w = (Raise e, s, w').
Proof.
  revert w. induction l as [|i l IH]; intros w Hw Hf (i0 & Hin & Hraise).
  - destruct Hin.
  - simpl. unfold bind at 1.
    destruct (Hf i w (or_introl eq_refl) Hw) as [(x & w1 & Hx & Hw1)|(w1 & Hx)].
    + rewrite Hx. destruct Hin as [<-|Hin].
      * destruct (Hraise w Hw) as (w2 & Hr). rewrite Hr in Hx. discriminate Hx.
      * destruct (IH w1 Hw1) as (w2 & Hl).
        { intros j w0 Hj. apply Hf. right. exact Hj. }
        { exists i0. split; assumption. }
        unfold bind at 1. rewrite Hl. eauto.
    + rewrite Hx. eauto.
Qed.

Lemma last_in_range (n : Z) : 1 <= n -> In n (range 1 (n + 1)).
Proof.
  intros Hn. unfold range. apply in_map_iff. exists (Z.to_nat (n - 1)).
  split; [lia|]. apply in_seq. lia.
Qed.

Lemma predict_trained_past_calendar (n_days : Z) (self : t) (w : Env) (slope : float) :
  is_trained self = true ->
  model_data self !! "trend_slope" = Some slope ->
  historical_data self <> [] ->
  (forall k, 0 <= clock w k) ->
  3652059 <= n_days ->
  exists w',
    predict_next_values n_days self w
    = (Raise (Exception "OverflowError" "date value out of range"), self, w').
Proof.
  intros Ht Hs Hd Hclk Hn. unfold predict_next_values.
  unfold bind at 1. unfold get at 1. rewrite Ht. simpl negb. cbv iota.
  unfold bind at 1. unfold ret at 1.
  unfold bind at 1. unfold print at 1.
  unfold bind at 1. unfold get at 1.
  destruct (last (historical_data self)) as [d|] eqn:Hl;
    [|apply last_None in Hl; contradiction].
  unfold bind at 1. unfold last_item. rewrite Hl. unfold ret at 1.
  unfold bind at 1.
  match goal with |- context [for_each ?f (range 0 n_days) ?s ?w0] =>
    destruct (for_each_returns (fun w1 => clock w1 = clock w) (fun _ => True)
                f (range 0 n_days) s w0)
      as (xs & w1 & Hxs & Hlen & _ & Hclock) end.
  { reflexivity. }
  { intros i w0 _ Hw0. unfold bind, getitem. rewrite Hs. run_ml.
    eexists. eexists. split; [reflexivity|]. split; [exact Hw0|exact I]. }
  rewrite Hxs.
  rewrite length_range in Hlen.
  destruct (length xs) as [|k] eqn:Hk; [lia|].
  cbv beta iota delta [bind ret uniform next_draw div_len].
  match goal with |- context [for_each ?f (range 1 (n_days + 1)) ?s ?w0] =>
    destruct (for_each_raises (fun w2 => clock w2 = clock w)
                (Exception "OverflowError" "date value out of range")
                f (range 1 (n_days + 1)) s w0)
      as (w2 & Hds) end.
  { exact Hclock. }
  { intros i w0 _ Hw0. unfold now, plus_days. cbv beta iota zeta.
    destruct (_ && _); [left|right]; eauto. }
  { exists n_days. split; [apply last_in_range; lia|].
    intros w0 Hw0. unfold now, plus_days. cbv beta iota zeta.
    replace (clock w0 (ticks w0) + n_days * microseconds_per_day <=? datetime_max)
      with false.
    - rewrite andb_false_r. eauto.
    - symmetry. apply Z.leb_gt. rewrite Hw0. specialize (Hclk (ticks w0)).
      unfold datetime_max, microseconds_per_day. lia. }
  rewrite Hds. eauto.
Qed.

(** X19.  Asked for more days than the calendar has, [predict_next_values]
    raises when it computes the dates: on an engine with data, untrained or
    trained with a slope, whatever instants of the calendar the clock
    reads, the call fails with an overflow error; the engine is left
    trained, and as it was when it was trained already. *)
Theorem predict_next_values_past_calendar (n_days : Z) (self : t) (w : Env) :
  historical_data self <> [] ->
  (is_trained self = true -> is_Some (model_data self !! "trend_slope")) ->
  (forall k, 0 <= clock w k) ->
  3652059 <= n_days <= 999999999 ->
  exists self' w',
    predict_next_values n_days self w
    = (Raise (Exception "OverflowError" "date value out of range"), self', w')
    /\ is_trained self' = true
    /\ (is_trained self = true -> self' = self).
Proof.
  intros Hd Hslope Hclk [Hn _]. destruct (is_trained self) eqn:Ht.
  - destruct (Hslope eq_refl) as [slope Hs].
    destruct (predict_trained_past_calendar n_days self w slope Ht Hs Hd Hclk Hn)
      as (w' & Hr).
    exists self, w'. auto.
  - destruct (train_model_returns self w Hd)
      as (tr & s1 & w1 & Htrain & Ht1 & [slope Hs] & Hh).
    destruct (train_model_keeps self w tr s1 w1 Htrain) as [_ Hclock].
    rewrite (predict_next_values_untrained n_days self w tr s1 w1 Ht Htrain Ht1).
    assert (Hd1 : historical_data s1 <> []) by (rewrite Hh; exact Hd).
    assert (Hclk1 : forall k, 0 <= clock w1 k).
    { intros k. rewrite Hclock. apply Hclk. }
    destruct (predict_trained_past_calendar n_days s1 w1 slope Ht1 Hs Hd1 Hclk1 Hn)
      as (w' & Hr).
    exists s1, w'. split; [exact Hr|]. split; [exact Ht1|discriminate].
Qed.

Lemma recent_values_nonempty {A} (l : list A) :
  l <> [] ->
  exists newest oldest rest,
    last (slice_from (-30) l) = Some newest
    /\ slice_from (-30) l = oldest :: rest.
Proof.
  intros Hl.
  set (k := Z.to_nat (Z.max (Z.of_nat (length l) + -30) 0)).
  change (slice_from (-30) l) with (skipn k l).
  assert (Hk : (k < length l)%nat).
  { destruct l; [contradiction|]. subst k. simpl length. lia. }
  assert (Hlen : (0 < length (skipn k l))%nat) by (rewrite List.length_skipn; lia).
  destruct (skipn k l) as [|oldest rest] eqn:Hs; [simpl in Hlen; lia|].
  destruct (last_is_Some (oldest :: rest)) as [newest Hn]; [discriminate|].
  exists newest, oldest, rest. split; [exact Hn|reflexivity].
Qed.

(** X13.  [analyze_data] reads the engine and never writes it.  Without
    data it raises an index error.  With data it returns, having consumed
    one draw: between two and eight anomalies, the number of days as the
    volume, one of the two trends, the three fixed correlations. *)
Theorem analyze_data_reads_only (self : t) (w : Env) :
  (historical_data self = [] ->
   analyze_data self w
   = (Raise (Exception "IndexError" "list index out of range"), self,
      printed "📊 Analyse simulée des données..." w))
  /\ (historical_data self <> [] ->
      exists a,
        analyze_data self w
        = (Ok a, self, drew (printed "📊 Analyse simulée des données..." w))
        /\ 2 <= Analysis.anomalies a <= 8
        /\ Analysis.data_points a = Z.of_nat (length (historical_data self))
        /\ (Analysis.trend a = "Increasing" \/ Analysis.trend a = "Decreasing")
        /\ Analysis.correlations a
           = ["day_of_week (0.45)"; "month (0.38)"; "is_weekend (0.32)"]).
Proof.
  split.
  - intros Hd. unfold analyze_data. run_ml. rewrite Hd. reflexivity.
  - intros Hd. unfold analyze_data.
    assert (Hv : map value (historical_data self) <> []).
    { destruct (historical_data self); [contradiction|discriminate]. }
    destruct (recent_values_nonempty _ Hv) as (newest & oldest & rest & Hlast & Hfirst).
    unfold bind at 1. unfold print at 1. unfold bind at 1. unfold get at 1.
    cbv zeta. unfold bind at 1. unfold last_item. rewrite Hlast. unfold ret at 1.
    unfold bind at 1. unfold first_item at 1. rewrite Hfirst. unfold ret at 1.
    unfold randint, randbelow.
    cbv beta iota delta [bind ret next_draw].
    destruct (historical_data self) as [|d l] eqn:Hh; [contradiction|].
    simpl map. simpl length. cbv beta iota delta [div_len first_item ret].
    eexists. split; [reflexivity|]. simpl.
    split.
    + pose proof (Nat.mod_upper_bound (N.to_nat (entropy w (drawn w))) 7) as Hm.
      change (Z.to_nat (8 - 2 + 1)) with 7%nat. lia.
    + split; [reflexivity|]. split; [|reflexivity].
      destruct (PyFloat.gt newest oldest); [left|right]; reflexivity.
Qed.

End MoreMLEngineFacts.

(** ** Properties of the endpoints *)

Module ApiFacts.
Import MLEngineFacts.
Import MoreMLEngineFacts.

Implicit Types (g : api.globals) (w : Env).

Lemma chat_endpoint_text {E} {collaborator : Collaborator E}
    (data : gmap string pyval) (msg : string) (bot : ChatbotEngine E) w :
  message_of data = PStr msg -> msg <> "" ->
  exists (reply : string) eng' w',
    chat_endpoint data bot w
    = (Ok [ ("response", PStr reply);
            ("conversation_id", PStr "default");
            ("processing_time", PStr "⚡ Instant") ],
       {| ml_engine := eng';
          conversation_history :=
            appended (appended (conversation_history bot) "user" msg) "assistant" reply |},
       w').
Proof.
  intros Hmsg Hne. unfold chat_endpoint, try_except. fold (message_of data).
  rewrite Hmsg.
  assert (Ht : truthy (PStr msg) = true).
  { simpl. destruct (String.eqb_spec msg ""); [contradiction|reflexivity]. }
  rewrite Ht. cbv beta iota delta [bind ret negb].
  destruct (process_message_answers msg bot w) as (reply & eng' & w' & ->).
  eauto.
Qed.

(** X14.  The chatbot and the endpoints have each an engine of their own.
    A chat request leaves the engine of the endpoints as it was, so the
    health check answers the same before and after it, whatever the chat
    trained; the training, prediction and analysis endpoints leave the
    chatbot, its history and its engine, as they were. *)
Theorem chat_and_endpoints_have_separate_engines g w :
  (forall data,
     api.ml_engine (state_after (api.chat data) g w) = api.ml_engine g
     /\ forall w',
         fst (fst (api.health_check (state_after (api.chat data) g w) w'))
         = fst (fst (api.health_check g w')))
  /\ (forall data,
       api.chatbot (state_after (api.train_endpoint data) g w) = api.chatbot g
       /\ api.chatbot (state_after (api.predict_endpoint data) g w) = api.chatbot g)
  /\ api.chatbot (state_after api.analyze_endpoint g w) = api.chatbot g.
Proof.
  split; [|split].
  - intros data.
    assert (H : api.ml_engine (state_after (api.chat data) g w) = api.ml_engine g).
    { unfold state_after, api.chat, api.on_chatbot, zoom.
      destruct (chat_endpoint data (api.chatbot g) w) as [[r c] w1]. reflexivity. }
    split; [exact H|]. intros w'.
    unfold api.health_check, api.on_engine, try_except, zoom.
    cbv beta iota delta [bind ret get MLEngine.get_model_info].
    rewrite H. reflexivity.
  - intros data. split.
    + unfold state_after, api.train_endpoint, api.on_engine, try_except, zoom.
      unfold bind at 1.
      destruct (MLEngine.train_model (api.ml_engine g) w) as [[[r|e] s1] w1];
        reflexivity.
    + unfold state_after, api.predict_endpoint, api.on_engine, try_except, zoom.
      unfold bind at 1.
      destruct (MLEngine.predict_next_values _ (api.ml_engine g) w) as [[[r|e] s1] w1];
        reflexivity.
  - unfold state_after, api.analyze_endpoint, api.on_engine, try_except, zoom.
    unfold bind at 1.
    destruct (MLEngine.analyze_data (api.ml_engine g) w) as [[[r|e] s1] w1];
      reflexivity.
Qed.

Lemma predict_endpoint_run (data : option (gmap string Z)) g w :
  api.predict_endpoint data g w
  = try_except
      (prediction <- api.on_engine
                       (MLEngine.predict_next_values
                          (match data with
                           | Some d => default 7 (d !! "days")
                           | None => 7
                           end)) ;;
       ret [("status", api.Text "success"); ("prediction", api.PredictionOf prediction)])
      (fun e => raise (HTTPException 500 ("Erreur de prédiction: " +:+ str_exn e)))
      g w.
Proof.
  unfold api.predict_endpoint. destruct data as [d|]; [|reflexivity].
  destruct (decide (d = ∅)) as [->|]; [|reflexivity].
  rewrite lookup_empty. reflexivity.
Qed.

(** X15.  The prediction endpoint predicts seven days when the body is
    absent, empty or without "days".  Asked for no day or a negative number
    of days on an engine with data, it fails with an HTTP error 500 that
    carries the division by zero, and the engine is nonetheless left
    trained. *)
Theorem predict_endpoint_days (data : option (gmap string Z)) g w :
  ((data = None \/ exists d, data = Some d /\ d !! "days" = None) ->
   api.predict_endpoint data g w = api.predict_endpoint (Some {["days" := 7]}) g w)
  /\ (forall d days,
       data = Some d -> d !! "days" = Some days -> days <= 0 ->
       MLEngine.historical_data (api.ml_engine g) <> [] ->
       exists g' w',
         api.predict_endpoint data g w
         = (Raise (HTTPException 500 "Erreur de prédiction: division by zero"), g', w')
         /\ MLEngine.is_trained (api.ml_engine g') = true
         /\ api.chatbot g' = api.chatbot g).
Proof.
  split.
  - intros Hcase. rewrite !predict_endpoint_run.
    destruct Hcase as [->|(d & -> & Hd)]; [reflexivity|]. rewrite Hd. reflexivity.
  - intros d days -> Hdays Hle Hdata.
    rewrite predict_endpoint_run, Hdays. simpl default.
    destruct (predict_without_days days (api.ml_engine g) w Hdata Hle)
      as (s1 & w1 & Hr & Ht & _).
    unfold try_except, api.on_engine, zoom. unfold bind at 1. rewrite Hr.
    eexists. eexists. split; [reflexivity|]. split; [exact Ht|reflexivity].
Qed.

(** X16.  The health check never fails and changes nothing: it answers
    healthy with the trained flag and the number of days of the engine of
    the endpoints.  After a training through the endpoint on an engine with
    data it answers that the model is ready; on an engine without data the
    training endpoint fails with an HTTP error 500 that carries the
    division by zero. *)
Theorem health_check_follows_training (data : option (gmap string Z)) g w :
  api.health_check g w
  = (Ok [ ("status", api.Text "🟢 healthy");
          ("api_version", api.Text "1.0.0");
          ("mode", api.Text "🆓 FREE");
          ("model_ready", api.Flag (MLEngine.is_trained (api.ml_engine g)));
          ("data_points",
           api.Number (Z.of_nat (length (MLEngine.historical_data (api.ml_engine g)))));
          ("message", api.Text "API fonctionnelle en mode gratuit !") ],
     g, w)
  /\ (MLEngine.historical_data (api.ml_engine g) <> [] ->
      exists health g' w',
        (api.train_endpoint data ;; api.health_check) g w = (Ok health, g', w')
        /\ dict_get "status" health = Some (api.Text "🟢 healthy")
        /\ dict_get "model_ready" health = Some (api.Flag true))
  /\ (MLEngine.historical_data (api.ml_engine g) = [] ->
      exists w',
        api.train_endpoint data g w
        = (Raise (HTTPException 500 "Erreur d'entraînement: division by zero"), g, w')).
Proof.
  split; [|split].
  - destruct g as [c e]. reflexivity.
  - intros Hd.
    destruct (train_model_returns (api.ml_engine g) w Hd)
      as (tr & s1 & w1 & Htrain & Ht1 & _ & _).
    unfold bind at 1. unfold api.train_endpoint, try_except, api.on_engine, zoom.
    unfold bind at 1. rewrite Htrain. unfold ret at 1.
    unfold api.health_check, try_except, api.on_engine, zoom.
    cbv beta iota delta [bind ret get MLEngine.get_model_info].
    eexists. eexists. eexists. split; [reflexivity|].
    cbn [api.ml_engine ModelInfo.is_trained]. rewrite Ht1. split; reflexivity.
  - intros Hd. unfold api.train_endpoint, try_except, api.on_engine, zoom.
    unfold bind at 1. rewrite (train_model_raises _ w Hd).
    destruct g as [c e]. eexists. reflexivity.
Qed.

Lemma last_two_appended (h : list Message) (msg reply : string) :
  lastn 2 (appended (appended h "user" msg) "assistant" reply)
  = [ {| role := "user"; content := PStr msg |};
      {| role := "assistant"; content := PStr reply |} ].
Proof.
  rewrite !appended_lastn, lastn_app_lastn, lastn_lastn, <- List.app_assoc
    by (rewrite capacity_value; lia).
  apply (lastn_app_exact h
           [ {| role := "user"; content := PStr msg |};
             {| role := "assistant"; content := PStr reply |} ]).
Qed.

(** X17.  The conversation endpoints.  Reading the conversation never fails
    and changes nothing.  After a chat request with a text that is not
    empty, the conversation read ends with the user's text and the response
    of that request.  After a deletion it is empty and the chatbot's engine
    is as it was. *)
Theorem conversation_endpoints (data : gmap string pyval) (msg : string) g w :
  api.get_conversation g w
  = (Ok [("conversation", api.History (conversation_history (api.chatbot g)))], g, w)
  /\ (message_of data = PStr msg -> msg <> "" ->
      exists (reply : string) g1 w1,
        api.chat data g w
        = (Ok [ ("response", PStr reply);
                ("conversation_id", PStr "default");
                ("processing_time", PStr "⚡ Instant") ], g1, w1)
        /\ lastn 2 (conversation_history (api.chatbot g1))
           = [ {| role := "user"; content := PStr msg |};
               {| role := "assistant"; content := PStr reply |} ])
  /\ (api.clear_conversation ;; api.get_conversation) g w
     = (Ok [("conversation", api.History [])],
        {| api.chatbot :=
             {| ml_engine := ml_engine (api.chatbot g); conversation_history := [] |};
           api.ml_engine := api.ml_engine g |},
        w).
Proof.
  split; [|split].
  - destruct g as [c e]. reflexivity.
  - intros Hmsg Hne.
    destruct (chat_endpoint_text data msg (api.chatbot g) w Hmsg Hne)
      as (reply & eng' & w' & Hchat).
    unfold api.chat, api.on_chatbot, zoom. rewrite Hchat.
    eexists. eexists. eexists. split; [reflexivity|].
    cbn [api.chatbot conversation_history]. apply last_two_appended.
  - reflexivity.
Qed.

End ApiFacts.

(** ** The further statements on inputs *)



(** X6 on a greeting. *)
Lemma engine_untouched_example :
  ml_engine (state_after (process_message "Good morning") fresh_chatbot quiet_env)
  = ml_engine fresh_chatbot.
Proof.
  apply (engine_is_called_only_for_ml_intents "Good morning" fresh_chatbot quiet_env
           None {| intent := greeting; confidence := 0.8 |}
           (logged "detect_ml_intent" quiet_env)).
  - reflexivity.
  - reflexivity.
  - right. left. reflexivity.
Defined.


(** X9 on five entries and a capacity of three. *)
Lemma truncation_example :
  keep_last 3 [1; 2; 3; 4; 5] = lastn (Z.to_nat 3) [1; 2; 3; 4; 5]
  /\ Z.of_nat (length (keep_last 3 [1; 2; 3; 4; 5])) <= 3.
Proof.
  apply (proj1 (truncation_by_capacity [1; 2; 3; 4; 5]) 3). reflexivity.
Defined.

(** X10 on an engine with a day of data. *)
Lemma train_model_example :
  exists tr self' w',
    MLEngine.train_model (MLEngine.init [one_day]) quiet_env = (Ok tr, self', w')
    /\ MLEngine.is_trained self' = true
    /\ is_Some (MLEngine.last_training_time self')
    /\ (forall key, is_Some (MLEngine.model_data self' !! key) <-> In key trained_keys)
    /\ MLEngine.historical_data self' = MLEngine.historical_data (MLEngine.init [one_day])
    /\ MLEngine.model_name self' = MLEngine.model_name (MLEngine.init [one_day])
    /\ Training.model_name tr = MLEngine.model_name (MLEngine.init [one_day]).
Proof.
  apply (proj2 (MoreMLEngineFacts.train_model_needs_only_data
                  (MLEngine.init [one_day]) quiet_env)).
  discriminate.
Defined.

(** X11 on a prediction of no day. *)
Lemma predict_no_day_example :
  exists self' w',
    MLEngine.predict_next_values 0 (MLEngine.init [one_day]) quiet_env
    = (Raise (Exception "ZeroDivisionError" "division by zero"), self', w')
    /\ MLEngine.is_trained self' = true
    /\ (MLEngine.is_trained (MLEngine.init [one_day]) = true ->
        self' = MLEngine.init [one_day]).
Proof.
  apply (proj1 (proj2 (proj2 (MoreMLEngineFacts.predict_next_values_errors 0
                                (MLEngine.init [one_day]) quiet_env)))).
  - discriminate.
  - lia.
Defined.

(** X12 on a prediction of a week. *)
Lemma predict_week_example :
  exists r self' w',
    MLEngine.predict_next_values 7 (MLEngine.init [one_day]) quiet_env = (Ok r, self', w')
    /\ length (Prediction.predictions_detail r) = Z.to_nat 7
    /\ length (Prediction.dates r) = Z.to_nat 7
    /\ Forall not_negative (Prediction.predictions_detail r)
    /\ Prediction.model_name r = MLEngine.model_name (MLEngine.init [one_day]).
Proof.
  apply (MoreMLEngineFacts.predict_next_values_shape 7 (MLEngine.init [one_day]) quiet_env).
  - discriminate.
  - lia.
  - discriminate.
  - intros k. vm_compute. split; discriminate.
Defined.

(** X13 on an engine with a day of data. *)
Lemma analyze_data_example :
  exists a,
    MLEngine.analyze_data (MLEngine.init [one_day]) quiet_env
    = (Ok a, MLEngine.init [one_day],
       drew (printed "📊 Analyse simulée des données..." quiet_env))
    /\ 2 <= Analysis.anomalies a <= 8
    /\ Analysis.data_points a
       = Z.of_nat (length (MLEngine.historical_data (MLEngine.init [one_day])))
    /\ (Analysis.trend a = "Increasing" \/ Analysis.trend a = "Decreasing")
    /\ Analysis.correlations a
       = ["day_of_week (0.45)"; "month (0.38)"; "is_weekend (0.32)"].
Proof.
  apply (proj2 (MoreMLEngineFacts.analyze_data_reads_only
                  (MLEngine.init [one_day]) quiet_env)).
  discriminate.
Defined.

(** X15 on a request for no day. *)
Lemma predict_endpoint_example :
  exists g' w',
    api.predict_endpoint (Some {["days" := 0]}) fresh_globals quiet_env
    = (Raise (HTTPException 500 "Erreur de prédiction: division by zero"), g', w')
    /\ MLEngine.is_trained (api.ml_engine g') = true
    /\ api.chatbot g' = api.chatbot fresh_globals.
Proof.
  apply (proj2 (ApiFacts.predict_endpoint_days (Some {["days" := 0]})
                  fresh_globals quiet_env) {["days" := 0]} 0).
  - reflexivity.
  - reflexivity.
  - lia.
  - discriminate.
Defined.

(** X16 on the globals at start. *)
Lemma health_after_training_example :
  exists health g' w',
    (api.train_endpoint None ;; api.health_check) fresh_globals quiet_env
    = (Ok health, g', w')
    /\ dict_get "status" health = Some (api.Text "🟢 healthy")
    /\ dict_get "model_ready" health = Some (api.Flag true).
Proof.
  apply (proj1 (proj2 (ApiFacts.health_check_follows_training None
                         fresh_globals quiet_env))).
  discriminate.
Defined.

(** X17 on a chat request. *)
Lemma conversation_after_chat_example :
  exists (reply : string) g1 w1,
    api.chat {["message" := PStr "predict sales"]} fresh_globals quiet_env
    = (Ok [ ("response", PStr reply);
            ("conversation_id", PStr "default");
            ("processing_time", PStr "⚡ Instant") ], g1, w1)
    /\ lastn 2 (conversation_history (api.chatbot g1))
       = [ {| role := "user"; content := PStr "predict sales" |};
           {| role := "assistant"; content := PStr reply |} ].
Proof.
  apply (proj1 (proj2 (ApiFacts.conversation_endpoints
                         {["message" := PStr "predict sales"]} "predict sales"
                         fresh_globals quiet_env))).
  - reflexivity.
  - discriminate.
Defined.


(** C9 as stated fails on a call with a value that is not a text, which the
    type of the parameter leaves out: the number 5 is appended as the
    user's message, the lookup raises, and no reply is appended. *)
Lemma number_is_appended_and_lower_raises :
  process_message (PInt 5) fresh_chatbot quiet_env
  = (Raise (Exception "AttributeError" "'int' object has no attribute 'lower'"),
     {| ml_engine := ml_engine fresh_chatbot;
        conversation_history := [ {| role := "user"; content := PInt 5 |} ] |},
     quiet_env)
  /\ (forall lower strip : string -> string,
       AnyText.process_message lower strip (PInt 5) fresh_chatbot quiet_env
       = process_message (PInt 5) fresh_chatbot quiet_env).
Proof. split; [|intros lower strip]; reflexivity. Qed.

(** C5 as amended, at the two functions of ASCII and on a text that only a
    quick pattern answers. *)
Lemma instant_lookup_example :
  trims PyStr.strip
  /\ AnyText.get_instant_response PyStr.lower PyStr.strip "  So FAST " fresh_chatbot quiet_env
     = (Ok (AnyTextDefs.three_tier_lookup PyStr.lower PyStr.strip "  So FAST "),
        fresh_chatbot, quiet_env)
  /\ AnyTextDefs.three_tier_lookup PyStr.lower PyStr.strip "  So FAST " = Some lightning_reply.
Proof.
  split; [exact AnyTextFacts.strip_trims|]. split; [|reflexivity].
  apply (instant_lookup_has_three_tiers PyStr.lower PyStr.strip "  So FAST "
           fresh_chatbot quiet_env AnyTextFacts.strip_trims).
Defined.

(** X4 at the two functions of ASCII, on a text about information. *)
Lemma information_example :
  PyStr.contains "help" (PyStr.lower "What is the information?") = false
  /\ PyStr.contains "data" (PyStr.lower "What is the information?") = false
  /\ PyStr.contains "dataset" (PyStr.lower "What is the information?") = false
  /\ exists picked bot' w',
      In picked (simulation_responses general)
      /\ AnyText.process_message PyStr.lower PyStr.strip "What is the information?"
           fresh_chatbot quiet_env
         = (Ok (if PyStr.any_in ["how"; "work"; "explain"; "methodology"]
                     (PyStr.lower "What is the information?")
                then how_it_works
                else if PyStr.any_in ["assistance"; "commands"]
                          (PyStr.lower "What is the information?")
                then help_commands
                else if PyStr.contains "information" (PyStr.lower "What is the information?")
                then data_sources
                else picked +:+ general_suffix "What is the information?"),
            bot', w').
Proof.
  apply (general_handler_sees_no_help_nor_data PyStr.lower PyStr.strip
           "What is the information?" fresh_chatbot quiet_env
           {| intent := general; confidence := 0.9 |}
           (logged "detect_ml_intent" quiet_env) AnyTextFacts.strip_trims); reflexivity.
Defined.

(** On a text whose lowercase form has letters that its ASCII form has
    not: with a case mapping that knows the capital I with a dot and the
    Kelvin sign, the lookup answers "Hİ" as it answers "hi" and finds
    "quick" in "quicK", the classifier finds a greeting in "Hİ", and the
    general handler finds "work" in "it worK". *)
Example beyond_ascii_example :
  AnyText.get_instant_response sample_lower PyStr.strip "Hİ" fresh_chatbot quiet_env
  = (Ok (Some "Hi there! 🤖 Ready to explore data predictions together?"),
     fresh_chatbot, quiet_env)
  /\ AnyTextDefs.three_tier_lookup sample_lower PyStr.strip "Hİ"
     = Some "Hi there! 🤖 Ready to explore data predictions together?"
  /\ AnyTextDefs.three_tier_lookup sample_lower PyStr.strip "quicK" = Some lightning_reply
  /\ first_category (sample_lower "Hİ") = greeting
  /\ fst (fst (AnyText.process_message sample_lower PyStr.strip "it worK"
                 fresh_chatbot quiet_env))
     = Ok how_it_works.
Proof. repeat split. Qed.

(** The slice of the general handler counts characters: of sixty letters
    with an accent, two bytes each, it keeps fifty. *)
Example take_counts_characters :
  String.length (PyStr.take 50 (String.concat "" (repeat "é" 60))) = 100%nat
  /\ PyStr.take 2 "héllo" = "hé".
Proof. split; reflexivity. Qed.

(** The last day of the calendar has no next day. *)
Example plus_days_example :
  MLEngine.plus_days (S:=unit) 0 3652058 tt quiet_env
  = (Ok (3652058 * MLEngine.microseconds_per_day), tt, quiet_env)
  /\ MLEngine.plus_days (S:=unit) 0 3652059 tt quiet_env
     = (Raise (Exception "OverflowError" "date value out of range"), tt, quiet_env).
Proof. split; reflexivity. Qed.

(** X19 on a prediction of every day of the calendar and one more. *)
Lemma predict_past_calendar_example :
  exists self' w',
    MLEngine.predict_next_values 3652059 (MLEngine.init [one_day]) quiet_env
    = (Raise (Exception "OverflowError" "date value out of range"), self', w')
    /\ MLEngine.is_trained self' = true
    /\ (MLEngine.is_trained (MLEngine.init [one_day]) = true ->
        self' = MLEngine.init [one_day]).
Proof.
  apply (MoreMLEngineFacts.predict_next_values_past_calendar 3652059
           (MLEngine.init [one_day]) quiet_env).
  - discriminate.
  - discriminate.
  - intros k. simpl. lia.
  - lia.
Defined.
